(** * ScholarX backend (demo.js): authentication middleware, role guards and
    request handlers, as a shallow embedding.

    The Express application of [demo.js] is embedded as a function from a
    request to a computation in a small state-and-rejection monad.  The state
    is the document store (the four Mongoose collections), the response
    object [res] of the request being served, a counter for fresh document
    ids, and two ghost components: an oracle that says which of the coming
    persistence calls fail, and a trace of what ran.

    External collaborators and what is assumed of them:
    - the token verifier ([admin.auth().verifyIdToken]) is a Section
      variable: a function from the token to the decoded claims or to an
      error;
    - an awaited Mongoose call is one operation of the store, and a second
      one for the join of a query with [populate]; an operation can fail for
      reasons outside the program (the oracle), because the document does
      not validate against its schema, or because a unique index of the
      schema is violated;
    - [_id] is a fresh number; the time stamps and the version key that
      Mongoose adds to a document are left out, no handler reads them;
    - an [async] handler whose promise rejects sends nothing: the rejection
      is the result of the computation. *)

From Stdlib Require Import String Ascii ZArith List.
From stdpp Require Import base option list strings pretty gmap.

Local Open Scope string_scope.
Set Warnings "-register-all".

(** ** Values, documents and errors *)

Inductive Err :=
| StoreError (msg : string)
| DuplicateKey (path : string)
| ValidationError (path : string)
| AuthError (msg : string)
| ReferenceError (name : string)
| HeadersSent.

(** JSON-like values; an object is a finite map from field names. *)
Inductive Val :=
| VNull
| VBool (b : bool)
| VNum (n : Z)
| VStr (s : string)
| VId (n : N)
| VErr (e : Err)
| VArr (l : list Val)
| VObj (o : gmap string Val).

Abbreviation Doc := (gmap string Val).

(** The decoded token, [req.user]: the fields the handlers read are strings;
    a field that is absent reads as [undefined], that is [None]. *)
Abbreviation Claims := (gmap string string).

(** [d.k] when it is a string. *)
Definition str_field (d : Doc) (k : string) : option string :=
  match d !! k with
  | Some (VStr s) => Some s
  | _ => None
  end.

(** A field of an object literal: a key whose value is [undefined] is not
    stored. *)
Definition with_field (k : string) (v : option Val) (d : Doc) : Doc :=
  match v with
  | Some x => <[k := x]> d
  | None => d
  end.

(** ** Requests, responses, the store *)

Inductive Method := GET | POST.

#[global] Instance Method_eq_dec : EqDecision Method.
Proof. solve_decision. Defined.

Record Request := {
  method : Method;
  path : string;
  authorization : option string;   (* req.headers.authorization *)
  body : Doc                       (* req.body, parsed by express.json() *)
}.

Record Response := {
  status : nat;
  payload : option Val             (* None: res.json(undefined) *)
}.

Inductive Route :=
| Login | Professors | Students | Users
| PostResearch | GetResearch | Apply | Discussions.

Inductive Coll := CUser | CResearch | CApplication | CDiscussion.

Inductive Event :=
| EvVerify (token : string)        (* a call of the token verifier *)
| EvHandler (r : Route)            (* the route's own handler was entered *)
| EvRead (c : Coll)                (* a query was sent to the store *)
| EvWrite (c : Coll).              (* an insert was sent to the store *)

Record Store := {
  users : list Doc;
  researches : list Doc;
  applications : list Doc;
  discussions : list Doc
}.

Record World := {
  store : Store;
  res : option Response;           (* what has been sent, if anything *)
  ids : N;                         (* next fresh _id *)
  faults : list (option Err);      (* one entry per persistence call to come *)
  trace : list Event
}.

Definition empty_store : Store :=
  {| users := []; researches := []; applications := []; discussions := [] |}.

Definition init_world (st : Store) (fs : list (option Err)) : World :=
  {| store := st; res := None; ids := 0%N; faults := fs; trace := [] |}.

(** ** The monad of handlers: state, and rejection of the promise *)

Inductive Result (A : Type) :=
| Ok (a : A)
| Rejected (e : Err).
Arguments Ok {A} a.
Arguments Rejected {A} e.

Definition M (A : Type) : Type := World -> Result A * World.

Definition ret {A} (a : A) : M A := fun w => (Ok a, w).

Definition bind {A B} (m : M A) (k : A -> M B) : M B :=
  fun w =>
    match m w with
    | (Ok a, w') => k a w'
    | (Rejected e, w') => (Rejected e, w')
    end.

Notation "'let*' x ':=' m 'in' k" := (bind m (fun x => k))
  (at level 10, x name, m at level 100, k at level 200).
Notation "m ';;' k" := (bind m (fun _ => k))
  (at level 100, k at level 200, right associativity).

Definition throw {A} (e : Err) : M A := fun w => (Rejected e, w).

(** [try { m } catch (error) { h error }] *)
Definition try_catch {A} (m : M A) (h : Err -> M A) : M A :=
  fun w =>
    match m w with
    | (Ok a, w') => (Ok a, w')
    | (Rejected e, w') => h e w'
    end.

(** The updates of the world. *)
Definition log (ev : Event) (w : World) : World :=
  {| store := store w; res := res w; ids := ids w;
     faults := faults w; trace := trace w ++ [ev] |}.

Definition answer (code : nat) (v : option Val) (w : World) : World :=
  {| store := store w; res := Some {| status := code; payload := v |};
     ids := ids w; faults := faults w; trace := trace w |}.

Definition with_store (st : Store) (w : World) : World :=
  {| store := st; res := res w; ids := ids w;
     faults := faults w; trace := trace w |}.

Definition next_id (w : World) : World :=
  {| store := store w; res := res w; ids := N.succ (ids w);
     faults := faults w; trace := trace w |}.

Definition called (ev : Event) (w : World) : World :=
  {| store := store w; res := res w; ids := ids w;
     faults := tail (faults w); trace := trace w ++ [ev] |}.

(** What the oracle holds for the next persistence call. *)
Definition next_fault (w : World) : option Err :=
  match faults w with
  | Some e :: _ => Some e
  | _ => None
  end.

(** The response object of a request that has just arrived. *)
Definition fresh_res (w : World) : World :=
  {| store := store w; res := None; ids := ids w;
     faults := faults w; trace := trace w |}.

Definition emit (ev : Event) : M unit := fun w => (Ok tt, log ev w).

Definition get_store : M Store := fun w => (Ok (store w), w).

Definition put_store (st : Store) : M unit :=
  fun w => (Ok tt, with_store st w).

(** A fresh [_id], as [new Model(...)] draws one. *)
Definition fresh_id : M Val := fun w => (Ok (VId (ids w)), next_id w).

(** [res.status(code).json(v)]; [res.json(v)] is the same with code 200.
    Express refuses a second send. *)
Definition res_json (code : nat) (v : option Val) : M unit :=
  fun w =>
    match res w with
    | Some _ => (Rejected HeadersSent, w)
    | None => (Ok tt, answer code v w)
    end.

(** One round trip to the store: the next entry of the oracle says whether
    it fails. *)
Definition db_call (ev : Event) : M unit :=
  fun w =>
    match next_fault w with
    | Some e => (Rejected e, called ev w)
    | None => (Ok tt, called ev w)
    end.

(** ** Strings: [String.prototype.split] with a non-empty separator *)

(** [split_go sep skip cur s] scans [s] from the left; [cur] is the piece
    being collected and [skip] the number of characters of a separator
    still to be passed over. *)
Fixpoint split_go (sep : string) (skip : nat) (cur : string) (s : string)
  : list string :=
  match s with
  | EmptyString => [cur]
  | String c s' =>
      match skip with
      | S k => split_go sep k cur s'
      | O =>
          if String.prefix sep s
          then cur :: split_go sep (String.length sep - 1) "" s'
          else split_go sep 0 (cur +:+ String c "") s'
      end
  end.

Definition split (sep s : string) : list string := split_go sep 0 "" s.

(** [req.headers.authorization?.split("Bearer ")[1]], with the test
    [!token] folded in: [None] when the result is [undefined] or the empty
    string. *)
Definition bearer_token (h : option string) : option string :=
  match h with
  | None => None
  | Some s =>
      match split "Bearer " s !! 1%nat with
      | Some "" => None
      | Some t => Some t
      | None => None
      end
  end.

(** ** The Mongoose models

    A query or an insert is one call to the store, the join of [populate]
    a call of its own.  The collections keep insertion order, [findOne]
    returns the first match. *)

(** The filter [{ k: v }] of a query on a String path: the document's field
    equals [v]; an [undefined] value selects the documents without the
    field. *)
Definition matches (k : string) (v : option string) (d : Doc) : bool :=
  bool_decide (str_field d k = v).

Definition set_users (us : list Doc) (st : Store) : Store :=
  {| users := us; researches := researches st;
     applications := applications st; discussions := discussions st |}.

Definition set_researches (rs : list Doc) (st : Store) : Store :=
  {| users := users st; researches := rs;
     applications := applications st; discussions := discussions st |}.

Module User.

Definition roles : list string := ["student"; "professor"; "admin"].

(** [User.findOne({ email })] *)
Definition findOne (email : option string) : M (option Doc) :=
  db_call (EvRead CUser);;
  let* st := get_store in
  ret (List.find (matches "email" email) (users st)).

(** [User.find(q).select("-" + minus)]; [q] is the role asked for, or
    [None] for [User.find()]. *)
Definition find_select (q : option string) (minus : string)
  : M (list Doc) :=
  db_call (EvRead CUser);;
  let* st := get_store in
  let found :=
    match q with
    | Some r => List.filter (matches "role" (Some r)) (users st)
    | None => users st
    end in
  ret (map (delete minus) found).

(** [new User({ firebase_uid: uid, full_name: name, email })]: the
    schema's defaults are filled in. *)
Definition new (uid name email : option string) : M Doc :=
  let* id := fresh_id in
  ret (with_field "firebase_uid" (VStr <$> uid)
        (with_field "full_name" (VStr <$> name)
          (with_field "email" (VStr <$> email)
            {[ "_id" := id; "role" := VStr "student";
               "research_interests" := VArr [] ]}))).

(** Schema validation: [firebase_uid] is required (a required string is
    not empty), [role] is one of the enumeration. *)
Definition validate (d : Doc) : option Err :=
  match str_field d "firebase_uid" with
  | None | Some "" => Some (ValidationError "firebase_uid")
  | Some _ =>
      match d !! "role" with
      | Some (VStr r) =>
          if bool_decide (r ∈ roles) then None
          else Some (ValidationError "role")
      | _ => None
      end
  end.

(** [user.save()] of a new document: validation, then the insert, which
    the unique indexes on [firebase_uid] and [email] can refuse. *)
Definition save (d : Doc) : M unit :=
  match validate d with
  | Some e => throw e
  | None =>
      db_call (EvWrite CUser);;
      let* st := get_store in
      if existsb (matches "firebase_uid" (str_field d "firebase_uid"))
           (users st)
      then throw (DuplicateKey "firebase_uid")
      else if existsb (matches "email" (str_field d "email")) (users st)
      then throw (DuplicateKey "email")
      else put_store (set_users (users st ++ [d]) st)
  end.

End User.

(** [query.populate(path, "full_name email")]: the reference is replaced by
    the selected fields of the user it names, or by [null]. *)
Definition has_id (n : N) (u : Doc) : bool :=
  match u !! "_id" with
  | Some (VId m) => bool_decide (m = n)
  | _ => false
  end.

Definition populate (path : string) (us : list Doc) (d : Doc) : Doc :=
  match d !! path with
  | Some (VId n) =>
      <[path :=
          match List.find (has_id n) us with
          | Some u =>
              VObj (filter (fun kv : string * Val =>
                              kv.1 ∈ ["_id"; "full_name"; "email"]) u)
          | None => VNull
          end]> d
  | _ => d
  end.

(** The value of a 24-digit hexadecimal string, as [new ObjectId(s)] reads
    it; any other string is refused. *)
Definition hex_digit (c : ascii) : option N :=
  let n := N_of_ascii c in
  if (48 <=? n)%N && (n <=? 57)%N then Some (n - 48)%N
  else if (97 <=? n)%N && (n <=? 102)%N then Some (n - 87)%N
  else if (65 <=? n)%N && (n <=? 70)%N then Some (n - 55)%N
  else None.

Fixpoint hex_value (s : string) (acc : N) : option N :=
  match s with
  | EmptyString => Some acc
  | String c s' =>
      match hex_digit c with
      | Some d => hex_value s' (16 * acc + d)%N
      | None => None
      end
  end.

Definition object_id_of_hex (s : string) : option N :=
  if Nat.eqb (String.length s) 24 then hex_value s 0%N else None.

(** Mongoose's cast of a value to a String path: strings are kept, numbers
    and booleans are written out, arrays and objects are refused ([None]:
    a CastError). *)
Definition cast_string (v : Val) : option Val :=
  match v with
  | VNull => Some VNull
  | VStr s => Some (VStr s)
  | VNum n => Some (VStr (pretty n))
  | VBool b => Some (VStr (if b then "true" else "false"))
  | _ => None
  end.

(** The id [new ObjectId(String(v))] gives: a one-element array reads as
    its element. *)
Fixpoint id_of (v : Val) : option N :=
  match v with
  | VId n => Some n
  | VStr s => object_id_of_hex s
  | VArr (x :: nil) => id_of x
  | _ => None
  end.

(** Mongoose's cast of a value to an ObjectId path; of an object, its
    [_id] is read. *)
Definition cast_object_id (v : Val) : option Val :=
  match v with
  | VNull => Some VNull
  | VObj o => VId <$> (o !! "_id" ≫= id_of)
  | _ => VId <$> id_of v
  end.

(** Mongoose's cast to an array path: each element is cast, and a value
    that is not an array is taken as the array of that value. *)
Definition cast_list (cast : Val -> option Val) (v : Val) : option Val :=
  match v with
  | VNull => Some VNull
  | VArr l => VArr <$> mapM cast l
  | _ => (fun x => VArr [x]) <$> cast v
  end.

(** Setting the path [k] of a document under construction from the object
    [b]: the cast value is stored; when the cast fails the path keeps what
    it had and is recorded as invalid. *)
Definition set_path (cast : Val -> option Val) (k : string) (b : Doc)
    (acc : Doc * list string) : Doc * list string :=
  match b !! k with
  | None => acc
  | Some v =>
      match cast v with
      | Some v' => (<[k := v']> acc.1, acc.2)
      | None => (acc.1, (acc.2 ++ [k])%list)
      end
  end.

Module Research.


(** The paths of the schema that are not nested, with their casts. *)
Definition schema : list (string * (Val -> option Val)) :=
  [ ("_id", cast_object_id);
    ("title", cast_string);
    ("description", cast_string);
    ("professor_id", cast_object_id);
    ("university", cast_string);
    ("status", cast_string);
    ("applicants", cast_list cast_object_id) ].

(** The paths nested in [eligibility]. *)
Definition eligibility_schema : list (string * (Val -> option Val)) :=
  [ ("degree", cast_string);
    ("year", cast_list cast_string);
    ("skills_required", cast_list cast_string) ].

Definition no_eligibility : Doc :=
  {[ "year" := VArr []; "skills_required" := VArr [] ]}.

(** The defaults of the schema: [status], and the empty arrays. *)
Definition defaults (id : Val) : Doc :=
  {[ "_id" := id; "status" := VStr "open"; "applicants" := VArr [];
     "eligibility" := VObj no_eligibility ]}.

(** Setting the nested path [eligibility]: from an object, its paths;
    [null] is stored; any other value is passed over. *)
Definition set_eligibility (v : Val) (acc : Doc * list string)
  : Doc * list string :=
  match v with
  | VObj o =>
      let sub :=
        fold_left (fun a kc => set_path kc.2 kc.1 o a) eligibility_schema
          (no_eligibility, []) in
      (<["eligibility" := VObj sub.1]> acc.1,
       (acc.2 ++ ((fun k => "eligibility." +:+ k) <$> sub.2))%list)
  | VNull => (<["eligibility" := VNull]> acc.1, acc.2)
  | _ => acc
  end.

(** The document [new Research(b)] builds, with the paths whose value did
    not cast: the defaults, then the fields of [b] that are paths of the
    schema, each cast to the type of its path; other fields of [b] are
    dropped. *)
Definition hydrate (id : Val) (b : Doc) : Doc * list string :=
  let top :=
    fold_left (fun a kc => set_path kc.2 kc.1 b a) schema (defaults id, []) in
  match b !! "eligibility" with
  | Some v => set_eligibility v top
  | None => top
  end.

(** [new Research(req.body)] *)
Definition new (b : Doc) : M (Doc * list string) :=
  let* id := fresh_id in
  ret (hydrate id b).

(** Validation before the insert: the status is one of the enumeration, no
    path failed to cast, and there is an [_id].  Mongoose's error lists
    every failing path; here it names the status when that fails, else the
    first path that did not cast. *)
Definition validate (r : Doc * list string) : option Err :=
  match r.1 !! "status" with
  | Some (VStr s) =>
      if bool_decide (s ∈ ["open"; "closed"])
      then match r.2 with
           | k :: _ => Some (ValidationError k)
           | [] =>
               match r.1 !! "_id" with
               | Some (VId _) => None
               | _ => Some (ValidationError "_id")
               end
           end
      else Some (ValidationError "status")
  | _ =>
      match r.2 with
      | k :: _ => Some (ValidationError k)
      | [] =>
          match r.1 !! "_id" with
          | Some (VId _) => None
          | _ => Some (ValidationError "_id")
          end
      end
  end.

(** [research.save()] *)
Definition save (r : Doc * list string) : M unit :=
  match validate r with
  | Some e => throw e
  | None =>
      db_call (EvWrite CResearch);;
      let* st := get_store in
      put_store (set_researches (researches st ++ [r.1]) st)
  end.

(** A record that refers to a user by id. *)
Definition refers (path : string) (d : Doc) : bool :=
  match d !! path with
  | Some (VId _) => true
  | _ => false
  end.

(** [Research.find().populate("professor_id", "full_name email")]: the
    query for the records, then, when a record refers to a user, the query
    for the users they refer to. *)
Definition find_populate : M (list Doc) :=
  db_call (EvRead CResearch);;
  let* st := get_store in
  let found := researches st in
  (if existsb (refers "professor_id") found
   then db_call (EvRead CUser)
   else ret tt);;
  let* st := get_store in
  ret (map (populate "professor_id" (users st)) found).

End Research.

(** ** The application *)

Definition message (s : string) : Val := VObj {[ "message" := VStr s ]}.

Definition failure (s : string) (error : Err) : Val :=
  VObj {[ "message" := VStr s; "error" := VErr error ]}.

Definition docs (l : list Doc) : Val := VArr (VObj <$> l).

(** [req.user.role === r] *)
Definition role_is (user : Claims) (r : string) : bool :=
  bool_decide (user !! "role" = Some r).

(** The routes as [app.get] and [app.post] register them. *)
Definition routes : list (Method * string * Route) :=
  [ (POST, "/api/auth/login", Login);
    (GET, "/api/users/professors", Professors);
    (GET, "/api/users/students", Students);
    (GET, "/api/users", Users);
    (POST, "/api/research", PostResearch);
    (GET, "/api/research", GetResearch);
    (POST, "/api/apply", Apply);
    (GET, "/api/discussions", Discussions) ].

Definition route_of (req : Request) : option Route :=
  snd <$> List.find
            (fun e : Method * string * Route =>
               bool_decide (e.1.1 = method req)
               && bool_decide (e.1.2 = path req))
            routes.

(** The routes registered with [checkAuth] in front of their handler. *)
Definition protected (r : Route) : bool :=
  match r with
  | GetResearch | Discussions => false
  | _ => true
  end.

(** The role a route's guard asks for, for the routes that have one. *)
Definition required_role (r : Route) : option string :=
  match r with
  | Professors | Apply => Some "student"
  | Students | PostResearch => Some "professor"
  | _ => None
  end.

(** Entering the handler of a route (ghost: recorded in the trace). *)
Definition handler (r : Route) (h : M unit) : M unit :=
  emit (EvHandler r);; h.

Section App.

(** [admin.auth().verifyIdToken] *)
Variable verifyIdToken : string -> Err + Claims.

(** Middleware: Check Authentication.  [next()] starts the handler and
    does not wait for it: a rejection of the handler is not caught by the
    [try] of the middleware. *)
Definition checkAuth (req : Request) (next : Claims -> M unit) : M unit :=
  match bearer_token (authorization req) with
  | None =>
      res_json 401 (Some (message "Unauthorized: No token provided"))
  | Some token =>
      emit (EvVerify token);;
      match verifyIdToken token with
      | inr userData => next userData
      | inl _ =>
          res_json 401 (Some (message "Unauthorized: Invalid token"))
      end
  end.

(** User login (creates account if not exists) *)
Definition login (user : Claims) : M unit :=
  let email := user !! "email" in
  let name := user !! "name" in
  let uid := user !! "uid" in
  let* found := User.findOne email in
  let* user :=
    match found with
    | Some u => ret u
    | None =>
        let* u := User.new uid name email in
        User.save u;;
        ret u
    end in
  res_json 200
    (Some (VObj {[ "message" := VStr "Login successful";
                   "user" := VObj user ]})).

(** Students can see only professors *)
Definition professors (user : Claims) : M unit :=
  if negb (role_is user "student")
  then res_json 403 (Some (message "Access denied"))
  else
    try_catch
      (let* professors :=
         User.find_select (Some "professor") "firebase_uid" in
       res_json 200 (Some (docs professors)))
      (fun error =>
         res_json 500 (Some (failure "Error fetching professors" error))).

(** Professors can see only students *)
Definition students (user : Claims) : M unit :=
  if negb (role_is user "professor")
  then res_json 403 (Some (message "Access denied"))
  else
    try_catch
      (let* students :=
         User.find_select (Some "student") "firebase_uid" in
       res_json 200 (Some (docs students)))
      (fun error =>
         res_json 500 (Some (failure "Error fetching students" error))).

(** Admins can see all users *)
Definition all_users (user : Claims) : M unit :=
  try_catch
    (let* users :=
       if role_is user "student"
       then let* l := User.find_select (Some "professor") "firebase_uid" in
            ret (Some l)
       else if role_is user "professor"
       then let* l := User.find_select (Some "student") "firebase_uid" in
            ret (Some l)
       else if role_is user "admin"
       then let* l := User.find_select None "firebase_uid" in
            ret (Some l)
       else ret None in
     res_json 200 (docs <$> users))
    (fun error =>
       res_json 500 (Some (failure "Error fetching users" error))).

(** Professors can post research *)
Definition post_research (user : Claims) (req : Request) : M unit :=
  if negb (role_is user "professor")
  then res_json 403 (Some (message "Only professors can post research"))
  else
    let* research := Research.new (body req) in
    Research.save research;;
    res_json 201 (Some (VObj research.1)).

(** Get all research listings *)
Definition get_research : M unit :=
  let* researchList := Research.find_populate in
  res_json 200 (Some (docs researchList)).

(** Students can apply to research.  [Application] is declared and
    imported nowhere in [demo.js]: evaluating [new Application(...)] throws
    a ReferenceError, and the promise of the handler rejects. *)
Definition apply_research (user : Claims) (req : Request) : M unit :=
  if negb (role_is user "student")
  then res_json 403 (Some (message "Only students can apply"))
  else throw (ReferenceError "Application").

(** Get all discussions.  [Discussion] is declared and imported nowhere in
    [demo.js]: evaluating [Discussion.find()] throws a ReferenceError, and
    the promise of the handler rejects. *)
Definition get_discussions : M unit :=
  throw (ReferenceError "Discussion").

(** What a route runs once the request has reached it. *)
Definition dispatch (r : Route) (req : Request) : M unit :=
  match r with
  | Login => checkAuth req (fun user => handler Login (login user))
  | Professors =>
      checkAuth req (fun user => handler Professors (professors user))
  | Students =>
      checkAuth req (fun user => handler Students (students user))
  | Users => checkAuth req (fun user => handler Users (all_users user))
  | PostResearch =>
      checkAuth req
        (fun user => handler PostResearch (post_research user req))
  | GetResearch => handler GetResearch get_research
  | Apply =>
      checkAuth req (fun user => handler Apply (apply_research user req))
  | Discussions => handler Discussions get_discussions
  end.

(** The application: the route of the request, or Express's 404. *)
Definition app (req : Request) : M unit :=
  match route_of req with
  | Some r => dispatch r req
  | None => res_json 404 None
  end.

(** Serving one request in a world: the response object is new, the
    store, the oracle and the trace go on. *)
Definition serve (req : Request) (w : World) : Result unit * World :=
  app req (fresh_res w).

End App.

(** ** What is observed of a request *)

Definition sent_status (o : Result unit * World) : option nat :=
  status <$> res o.2.

(** The events a request added to the trace of the world it started in. *)
Definition events (w : World) (o : Result unit * World) : list Event :=
  drop (length (trace w)) (trace o.2).

Definition is_handler (ev : Event) : bool :=
  match ev with EvHandler _ => true | _ => false end.

Definition is_write (ev : Event) : bool :=
  match ev with EvWrite _ => true | _ => false end.

Definition is_read (ev : Event) : bool :=
  match ev with EvRead _ => true | _ => false end.

(** ** Vocabulary of the properties *)

(** The collection a public list endpoint reads. *)
Definition listed (r : Route) (st : Store) : list Doc :=
  match r with
  | GetResearch => researches st
  | Discussions => discussions st
  | _ => []
  end.

(** The records of the store that carry a given e-mail address: the ones a
    login with that address is about. *)
Definition holders (email : option string) (st : Store) : list Doc :=
  List.filter (matches "email" email) (users st).

(** What the unique index on [email] maintains. *)
Definition email_unique (st : Store) : Prop :=
  NoDup ((fun d => str_field d "email") <$> users st).

(** What the unique index on [firebase_uid] maintains. *)
Definition uid_unique (st : Store) : Prop :=
  NoDup ((fun d => str_field d "firebase_uid") <$> users st).

(** What a login answers: the record, found or created. *)
Definition login_reply (u : Doc) : Response :=
  {| status := 200;
     payload := Some (VObj {[ "message" := VStr "Login successful";
                              "user" := VObj u ]}) |}.

(** Records from which [select("-k")] has dropped the field [k]. *)
Definition lacks (k : string) (v : Val) : Prop :=
  exists d : Doc, v = VObj d /\ d !! k = None.

(** The view [GET /api/users] gives of the users that [pick] selects. *)
Definition view (pick : Doc -> bool) (st : Store) : Response :=
  {| status := 200;
     payload := Some (docs (delete "firebase_uid"
                              <$> List.filter pick (users st))) |}.

(** ** Sample data

    A verifier that knows four tokens, a store with one professor and one
    student, and requests against them. *)

Definition sample_verifier (token : string) : Err + Claims :=
  if bool_decide (token = "student-token")
  then inr {[ "uid" := "uid-sam"; "email" := "sam@uni.edu";
              "name" := "Sam"; "role" := "student" ]}
  else if bool_decide (token = "professor-token")
  then inr {[ "uid" := "uid-pat"; "email" := "pat@uni.edu";
              "name" := "Pat"; "role" := "professor" ]}
  else if bool_decide (token = "newcomer-token")
  then inr {[ "uid" := "uid-kim"; "email" := "kim@uni.edu";
              "name" := "Kim" ]}
  else if bool_decide (token = "moved-token")
  then inr {[ "uid" := "uid-pat-2"; "email" := "pat@uni.edu";
              "name" := "Patricia" ]}
  else inl (AuthError "Decoding Firebase ID token failed").

Definition pat : Doc :=
  {[ "_id" := VId 100; "firebase_uid" := VStr "uid-pat";
     "full_name" := VStr "Pat"; "email" := VStr "pat@uni.edu";
     "role" := VStr "professor" ]}.

Definition sam : Doc :=
  {[ "_id" := VId 101; "firebase_uid" := VStr "uid-sam";
     "full_name" := VStr "Sam"; "email" := VStr "sam@uni.edu";
     "role" := VStr "student" ]}.

Definition sample_store : Store :=
  {| users := [pat; sam]; researches := []; applications := [];
     discussions := [] |}.

Definition request (m : Method) (p : string) (token : option string)
    (b : Doc) : Request :=
  {| method := m; path := p;
     authorization := (fun t => "Bearer " +:+ t) <$> token; body := b |}.

Definition application_body : Doc :=
  {[ "research_id" := VStr "R1";
     "application_text" := VStr "I would like to join." ]}.

Definition research_body : Doc :=
  {[ "title" := VStr "Verified web services";
     "description" := VStr "Proofs about request handlers." ]}.

Definition connection_lost : Err := StoreError "connection lost".

(** ** Vocabulary of the further properties *)

(** [sep] occurs in [s], for a non-empty [sep]: [s.includes(sep)]. *)
Fixpoint occurs (sep s : string) : bool :=
  match s with
  | EmptyString => false
  | String _ s' => String.prefix sep s || occurs sep s'
  end.

(** [s.slice(n)] *)
Fixpoint string_drop (n : nat) (s : string) : string :=
  match n, s with
  | O, _ => s
  | S _, EmptyString => EmptyString
  | S k, String _ s' => string_drop k s'
  end.

(** [l.join(sep)] *)
Fixpoint join (sep : string) (l : list string) : string :=
  match l with
  | [] => ""
  | x :: l' =>
      match l' with
      | [] => x
      | _ :: _ => x +:+ sep +:+ join sep l'
      end
  end.

Definition is_verify (ev : Event) : bool :=
  match ev with EvVerify _ => true | _ => false end.

(** The role of the users a role-scoped list endpoint returns, and the noun
    of its error message. *)
Definition listed_role (r : Route) : option string :=
  match r with
  | Professors => Some "professor"
  | Students => Some "student"
  | _ => None
  end.

(** The reference a public list endpoint joins the user into. *)
Definition reference_path (r : Route) : string :=
  match r with
  | Discussions => "created_by"
  | _ => "professor_id"
  end.

(** The body of the handler registered for a route. *)
Definition handler_of (r : Route) (user : Claims) (req : Request) : M unit :=
  match r with
  | Login => login user
  | Professors => professors user
  | Students => students user
  | Users => all_users user
  | PostResearch => post_research user req
  | GetResearch => get_research
  | Apply => apply_research user req
  | Discussions => get_discussions
  end.

(** Serving requests one after the other. *)
Definition serve_all (verifyIdToken : string -> Err + Claims)
    (reqs : list Request) (w : World) : World :=
  fold_left (fun w req => (serve verifyIdToken req w).2) reqs w.

(** The next [n] persistence calls do not fail. *)
Definition calm (n : nat) (w : World) : Prop :=
  Forall (fun f => f = None) (take n (faults w)).

(** A user the application creates: a student with a subject id. *)
Definition created_user (d : Doc) : Prop :=
  str_field d "role" = Some "student"
  /\ exists uid, str_field d "firebase_uid" = Some uid /\ uid <> "".

(** The reference of a stored record is an id, if there is one. *)
Definition reference_is_id (path : string) (d : Doc) : Prop :=
  forall v, d !! path = Some v -> exists n, v = VId n.

(** A listed record whose joined user, if any, has no other field than
    the selected ones. *)
Definition joins_selected (path : string) (v : Val) : Prop :=
  exists d : Doc,
    v = VObj d
    /\ forall p : Doc,
         d !! path = Some (VObj p) ->
         p !! "firebase_uid" = None
         /\ forall k, is_Some (p !! k) -> k ∈ ["_id"; "full_name"; "email"].

(** More sample data: an identity whose subject id is the one of a stored
    user and whose e-mail is new, a research record that refers to a user,
    and a body with a status outside the enumeration. *)
Definition renamed_verifier (token : string) : Err + Claims :=
  if bool_decide (token = "renamed-token")
  then inr {[ "uid" := "uid-pat"; "email" := "pat@new.edu";
              "name" := "Pat" ]}
  else inl (AuthError "Decoding Firebase ID token failed").

Definition graphs : Doc :=
  {[ "_id" := VId 200; "title" := VStr "Graph algorithms";
     "professor_id" := VId 100; "status" := VStr "open" ]}.

Definition listing_store : Store :=
  {| users := [pat; sam]; researches := [graphs]; applications := [];
     discussions := [] |}.


Definition archived_body : Doc :=
  {[ "title" := VStr "Old topic"; "status" := VStr "archived" ]}.

(** ** The bearer token *)

Example split_bearer :
  split "Bearer " "Bearer abc" = [""; "abc"]
  /\ split "Bearer " "Basic abc" = ["Basic abc"]
  /\ split "Bearer " "Bearer Bearer abc" = [""; ""; "abc"]
  /\ split "aa" "aaa" = [""; "a"].
Proof. repeat split. Qed.

Example bearer_token_cases :
  bearer_token (Some "Bearer abc") = Some "abc"
  /\ bearer_token (Some "Bearer ") = None
  /\ bearer_token (Some "Basic abc") = None
  /\ bearer_token (Some "") = None
  /\ bearer_token None = None.
Proof. repeat split. Qed.

(** ** The authentication middleware *)

Section Middleware.

Variable verifyIdToken : string -> Err + Claims.

Lemma bearer_token_absent : bearer_token None = None.
Proof. reflexivity. Qed.

Lemma checkAuth_no_token req next w :
  res w = None ->
  bearer_token (authorization req) = None ->
  checkAuth verifyIdToken req next w
  = (Ok tt,
     answer 401 (Some (message "Unauthorized: No token provided")) w).
Proof.
  intros Hres Htok. unfold checkAuth, res_json.
  rewrite Htok, Hres. reflexivity.
Qed.

Lemma checkAuth_invalid req next w t e :
  res w = None ->
  bearer_token (authorization req) = Some t ->
  verifyIdToken t = inl e ->
  checkAuth verifyIdToken req next w
  = (Ok tt,
     answer 401 (Some (message "Unauthorized: Invalid token"))
       (log (EvVerify t) w)).
Proof.
  intros Hres Htok Hver. unfold checkAuth, bind, emit, res_json.
  rewrite Htok, Hver. simpl. rewrite Hres. reflexivity.
Qed.

Lemma checkAuth_verified req next w t user :
  bearer_token (authorization req) = Some t ->
  verifyIdToken t = inr user ->
  checkAuth verifyIdToken req next w = next user (log (EvVerify t) w).
Proof.
  intros Htok Hver. unfold checkAuth, bind, emit.
  rewrite Htok, Hver. reflexivity.
Qed.

(** A protected route is the middleware followed by the route's handler. *)
Lemma dispatch_protected r req :
  protected r = true ->
  exists h : Claims -> M unit,
    dispatch verifyIdToken r req
    = checkAuth verifyIdToken req (fun user => handler r (h user)).
Proof.
  destruct r; simpl; intros Hp; try discriminate Hp;
    eexists (fun user => _); reflexivity.
Qed.

Lemma events_since (w : World) (tr : list Event)
      (o : Result unit * World) :
  trace o.2 = (trace w ++ tr)%list -> events w o = tr.
Proof.
  intros H. unfold events. rewrite H. apply drop_app_length.
Qed.

(** C1: a request to a protected endpoint whose Authorization header is
    absent, or whose bearer token does not pass verification, is answered
    401; the route's handler is not entered, no insert is sent to the
    store and the store is as it was. *)
Theorem unauthenticated_request_is_401 req w r :
  route_of req = Some r ->
  protected r = true ->
  (authorization req = None
   \/ forall t, bearer_token (authorization req) = Some t ->
                 exists e, verifyIdToken t = inl e) ->
  let o := serve verifyIdToken req w in
  sent_status o = Some 401
  /\ store o.2 = store w
  /\ Forall (fun ev => is_handler ev = false /\ is_write ev = false)
       (events w o).
Proof.
  intros Hroute Hprot Hauth o. subst o.
  unfold serve, app. rewrite Hroute.
  destruct (dispatch_protected r req Hprot) as [h ->].
  destruct (bearer_token (authorization req)) as [t|] eqn:Htok.
  - destruct Hauth as [Habs | Hbad].
    + rewrite Habs in Htok. discriminate Htok.
    + destruct (Hbad t eq_refl) as [e He].
      rewrite (checkAuth_invalid _ _ _ t e); [|reflexivity|exact Htok|exact He].
      repeat split.
      erewrite events_since by (simpl; reflexivity).
      repeat constructor.
  - rewrite checkAuth_no_token; [|reflexivity|exact Htok].
    repeat split.
    erewrite events_since with (tr := []) by (simpl; symmetry; apply app_nil_r).
    constructor.
Qed.

End Middleware.

(** ** The role guards *)

Lemma role_is_true (user : Claims) r :
  user !! "role" = Some r -> role_is user r = true.
Proof. intros H. unfold role_is. apply bool_decide_eq_true_2, H. Qed.

Lemma role_is_false (user : Claims) r :
  user !! "role" <> Some r -> role_is user r = false.
Proof. intros H. unfold role_is. apply bool_decide_eq_false_2, H. Qed.

Lemma events_two (w : World) (o : Result unit * World) e1 e2 :
  trace o.2 = ((trace w ++ [e1]) ++ [e2])%list -> events w o = [e1; e2].
Proof.
  intros H. apply events_since. rewrite H, <- app_assoc. reflexivity.
Qed.

Section Guards.

Variable verifyIdToken : string -> Err + Claims.

(** C2: an authenticated request to a role-gated endpoint whose caller
    has another role than the one the endpoint asks for is answered 403;
    nothing was sent to the store, and the store, the oracle of the
    persistence calls and the id counter are as they were. *)
Theorem role_mismatch_is_403 req w r role t user :
  route_of req = Some r ->
  required_role r = Some role ->
  bearer_token (authorization req) = Some t ->
  verifyIdToken t = inr user ->
  user !! "role" <> Some role ->
  let o := serve verifyIdToken req w in
  sent_status o = Some 403
  /\ store o.2 = store w
  /\ faults o.2 = faults w
  /\ ids o.2 = ids w
  /\ events w o = [EvVerify t; EvHandler r].
Proof.
  intros Hroute Hrole Htok Hver Hne o. subst o.
  unfold serve, app. rewrite Hroute.
  destruct r; simpl in Hrole; try discriminate Hrole;
    injection Hrole as <-; simpl;
    rewrite (checkAuth_verified _ _ _ _ t user Htok Hver);
    unfold handler, bind, emit, professors, students, post_research,
      apply_research;
    rewrite (role_is_false _ _ Hne); simpl;
    (repeat split; apply events_two; reflexivity).
Qed.

End Guards.

(** ** The handlers that write *)

Lemma with_field_lookup k (v : option Val) (d : Doc) :
  d !! k = None -> with_field k v d !! k = v.
Proof.
  intros H. destruct v as [x|]; simpl; [apply lookup_insert_eq | exact H].
Qed.

Lemma with_field_lookup_ne k k' (v : option Val) (d : Doc) :
  k <> k' -> with_field k v d !! k' = d !! k'.
Proof.
  intros H. destruct v as [x|]; simpl; [by apply lookup_insert_ne | done].
Qed.

Section Writers.

Variable verifyIdToken : string -> Err + Claims.

(** C3: the code does not do what the claim says.  For an authenticated
    caller with role student, POST /api/apply passes the role guard and
    evaluates [new Application(...)], and [Application] is not declared:
    the handler rejects with a ReferenceError, no response is sent (no 201),
    nothing is sent to the store and no Application record is created. *)
Theorem student_application_throws req w t user :
  route_of req = Some Apply ->
  bearer_token (authorization req) = Some t ->
  verifyIdToken t = inr user ->
  user !! "role" = Some "student" ->
  let o := serve verifyIdToken req w in
  o.1 = Rejected (ReferenceError "Application")
  /\ res o.2 = None
  /\ store o.2 = store w
  /\ faults o.2 = faults w
  /\ events w o = [EvVerify t; EvHandler Apply].
Proof.
  intros Hroute Htok Hver Hrole o. subst o.
  unfold serve, app. rewrite Hroute. simpl.
  rewrite (checkAuth_verified _ _ _ _ t user Htok Hver).
  unfold handler, bind, emit, apply_research.
  rewrite (role_is_true _ _ Hrole). simpl.
  repeat split. apply events_two. reflexivity.
Qed.

End Writers.

(** ** The public lists *)

Section PublicLists.

Variable verifyIdToken : string -> Err + Claims.

(** C4: the code does what the claim says for GET /api/research only.
    Neither route answers 401 or 403, whatever the Authorization header, and
    the only response either sends is 200 with a list.  GET /api/research,
    when the store answers its two queries, answers 200 with one entry per
    research record, the empty list when there is none.  GET /api/discussions
    evaluates [Discussion.find()] with [Discussion] not declared: the
    handler rejects with a ReferenceError and no response is ever sent. *)
Theorem public_lists_research_answers_discussions_throws req w r :
  route_of req = Some r ->
  r = GetResearch \/ r = Discussions ->
  let o := serve verifyIdToken req w in
  sent_status o <> Some 401
  /\ sent_status o <> Some 403
  /\ (forall a, res o.2 = Some a ->
       status a = 200%nat /\ exists l : list Val, payload a = Some (VArr l))
  /\ (r = GetResearch ->
      calm 2 w ->
      exists l : list Val,
        res o.2 = Some {| status := 200; payload := Some (VArr l) |}
        /\ length l = length (researches (store w))
        /\ (researches (store w) = [] -> l = []))
  /\ (r = Discussions ->
      o.1 = Rejected (ReferenceError "Discussion")
      /\ res o.2 = None
      /\ store o.2 = store w
      /\ events w o = [EvHandler Discussions]).
Proof.
  intros Hroute Hr o. subst o.
  unfold serve, app. rewrite Hroute.
  destruct Hr as [-> | ->]; simpl.
  - unfold handler, bind, emit, get_research, Research.find_populate,
      bind, db_call, next_fault, get_store, ret, res_json, calm.
    destruct w as [st rs i fs tr]. simpl.
    destruct fs as [|[e1|] [|[e2|] fs]]; simpl;
      destruct (existsb (Research.refers "professor_id")
                  (researches st)) eqn:Hrefs; simpl;
      (split; [discriminate|]); (split; [discriminate|]);
      (split; [intros a [= <-]; simpl; eauto|]);
      (split; [|intros [=]]);
      intros _ Hcalm;
      try (apply Forall_cons_1 in Hcalm as [[=] _]; fail);
      try (apply Forall_cons_1 in Hcalm as [_ Hcalm];
           apply Forall_cons_1 in Hcalm as [[=] _]; fail);
      eexists; (split; [reflexivity|]);
      unfold docs; rewrite !length_fmap;
      (split; [reflexivity|]); intros ->; reflexivity.
  - unfold handler, bind, emit, get_discussions, throw. simpl.
    split; [discriminate|]. split; [discriminate|].
    split; [intros a [=]|]. split; [intros [=]|].
    intros _. repeat split.
    unfold events. simpl. by rewrite drop_app_length.
Qed.

End PublicLists.

(** ** Login *)

Lemma matches_true k v d : matches k v d = true <-> str_field d k = v.
Proof. unfold matches. apply bool_decide_eq_true. Qed.

Lemma find_none_filter {A} (f : A -> bool) l :
  List.find f l = None -> List.filter f l = [].
Proof.
  induction l as [|a l IH]; simpl; [done|].
  destruct (f a); [discriminate | exact IH].
Qed.

Lemma find_app_none {A} (f : A -> bool) l a :
  List.find f l = None -> f a = true ->
  List.find f (l ++ [a]) = Some a /\ List.filter f (l ++ [a]) = [a].
Proof.
  intros Hn Ha. induction l as [|b l IH]; simpl in *.
  - rewrite Ha. done.
  - destruct (f b); [discriminate | by apply IH].
Qed.

Lemma filter_absent k v (l : list Doc) :
  v ∉ (fun d => str_field d k) <$> l -> List.filter (matches k v) l = [].
Proof.
  induction l as [|a l IH]; simpl; [done|].
  intros Hnot. apply not_elem_of_cons in Hnot as [Hne Hnot].
  destruct (matches k v a) eqn:Hm.
  - apply matches_true in Hm. congruence.
  - by apply IH.
Qed.

Lemma find_unique k v (l : list Doc) u :
  NoDup ((fun d => str_field d k) <$> l) ->
  List.find (matches k v) l = Some u ->
  List.filter (matches k v) l = [u].
Proof.
  induction l as [|a l IH]; simpl; [done|].
  intros Hnd Hf. apply NoDup_cons in Hnd as [Hnot Hnd].
  destruct (matches k v a) eqn:Hm.
  - injection Hf as ->. apply matches_true in Hm. subst v.
    by rewrite filter_absent.
  - by apply IH.
Qed.

Lemma find_exists k v (l : list Doc) :
  (exists d, d ∈ l /\ str_field d k = v) ->
  exists u, List.find (matches k v) l = Some u
            /\ u ∈ l /\ str_field u k = v.
Proof.
  intros (d & Hin & Hd).
  destruct (List.find (matches k v) l) as [u|] eqn:Hf.
  - apply find_some in Hf as [Hu Hm].
    exists u. repeat split; [by apply list_elem_of_In | by apply matches_true].
  - apply list_elem_of_In in Hin.
    pose proof (find_none _ _ Hf d Hin) as Hm.
    apply matches_true in Hd. congruence.
Qed.

(** The document [new User] builds carries the e-mail of the claims. *)
Lemma new_user_email (uid name email : option string) (base : Doc) :
  base !! "email" = None ->
  str_field
    (with_field "firebase_uid" (VStr <$> uid)
       (with_field "full_name" (VStr <$> name)
          (with_field "email" (VStr <$> email) base))) "email" = email.
Proof.
  intros Hb. unfold str_field.
  rewrite !with_field_lookup_ne by done.
  rewrite with_field_lookup by exact Hb.
  by destruct email.
Qed.

(** Computes the events of a run whose trace has been evaluated. *)
Ltac events_of_run :=
  unfold events; simpl; rewrite <- ?app_assoc; rewrite drop_app_length;
  simpl.

Section LoginFacts.

Variable verifyIdToken : string -> Err + Claims.

(** Login of an identity whose e-mail a record already carries. *)
Lemma serve_login_found req w t user u :
  route_of req = Some Login ->
  bearer_token (authorization req) = Some t ->
  verifyIdToken t = inr user ->
  List.find (matches "email" (user !! "email")) (users (store w)) = Some u ->
  let o := serve verifyIdToken req w in
  store o.2 = store w
  /\ Forall (fun ev => is_write ev = false) (events w o)
  /\ (next_fault w = None -> res o.2 = Some (login_reply u))
  /\ (forall r, res o.2 = Some r -> r = login_reply u).
Proof.
  intros Hroute Htok Hver Hfind o. subst o.
  unfold serve, app. rewrite Hroute. simpl.
  rewrite (checkAuth_verified _ _ _ _ t user Htok Hver).
  unfold handler, bind, emit, login, User.findOne, bind, db_call,
    next_fault. simpl.
  destruct (faults w) as [|[e|] fs]; simpl;
    rewrite ?Hfind; unfold res_json; simpl;
    (split; [reflexivity|]);
    (split; [events_of_run; by repeat constructor|]);
    (split; [intros Hup; try discriminate Hup; reflexivity
            | intros r Hr; simpl in Hr;
              first [discriminate Hr | by injection Hr as <-]]).
Qed.

(** Login of an identity whose e-mail no record carries, when it is
    answered. *)
Lemma serve_login_created req w t user :
  route_of req = Some Login ->
  bearer_token (authorization req) = Some t ->
  verifyIdToken t = inr user ->
  List.find (matches "email" (user !! "email")) (users (store w)) = None ->
  let o := serve verifyIdToken req w in
  is_Some (res o.2) ->
  exists d : Doc,
    users (store o.2) = (users (store w) ++ [d])%list
    /\ str_field d "email" = user !! "email"
    /\ res o.2 = Some (login_reply d).
Proof.
  intros Hroute Htok Hver Hfind o. subst o.
  unfold serve, app. rewrite Hroute. simpl.
  rewrite (checkAuth_verified _ _ _ _ t user Htok Hver).
  unfold handler, bind, emit, login, User.findOne, bind, db_call,
    next_fault. simpl.
  destruct (faults w) as [|[e|] fs]; simpl;
    try (intros [? [=]]; fail);
    rewrite Hfind; simpl;
    unfold User.save;
    match goal with
    | |- context [User.validate ?d] =>
        destruct (User.validate d); simpl;
        [intros [? [=]]|]
    end;
    unfold bind, db_call, next_fault; simpl.
  all: repeat match goal with
       | |- context [match ?l with [] => _ | _ :: _ => _ end] =>
           destruct l as [|[?|] ?]; simpl
       | |- context [if existsb ?f ?l then _ else _] =>
           destruct (existsb f l); simpl
       end;
    try (intros [? [=]]; fail);
    intros _; eexists; (split; [reflexivity|]);
    (split; [by apply new_user_email | reflexivity]).
Qed.

End LoginFacts.

Section LoginClaims.

Variable verifyIdToken : string -> Err + Claims.

(** C10: when the e-mail of the verified claims is the e-mail of a stored
    User record, POST /api/auth/login sends no insert and leaves the store
    as it was, whatever subject id and name the record holds; when the
    store answers the query, the response is the stored record as
    found. *)
Theorem login_of_known_email_writes_nothing req w t user :
  route_of req = Some Login ->
  bearer_token (authorization req) = Some t ->
  verifyIdToken t = inr user ->
  (exists d, d ∈ users (store w) /\ str_field d "email" = user !! "email") ->
  let o := serve verifyIdToken req w in
  exists u : Doc,
    u ∈ users (store w)
    /\ str_field u "email" = user !! "email"
    /\ store o.2 = store w
    /\ Forall (fun ev => is_write ev = false) (events w o)
    /\ (next_fault w = None -> res o.2 = Some (login_reply u)).
Proof.
  intros Hroute Htok Hver Hex o.
  destruct (find_exists _ _ _ Hex) as (u & Hfind & Hin & Hu).
  destruct (serve_login_found verifyIdToken req w t user u
              Hroute Htok Hver Hfind) as (Hst & Hev & Hres & _).
  exists u. auto.
Qed.

(** C5, as amended: login is idempotent on the identities whose login is
    answered.  From a store whose e-mail addresses are unique, once a login
    of a verified identity has been answered 200, exactly one User record
    carries the identity's e-mail; a second login of the same identity
    sends no insert, leaves the store as the first one left it (so the
    record is still the only one), and what it answers is what the first
    one answered. *)
Theorem login_twice_one_record req w t user :
  route_of req = Some Login ->
  bearer_token (authorization req) = Some t ->
  verifyIdToken t = inr user ->
  email_unique (store w) ->
  let o1 := serve verifyIdToken req w in
  let o2 := serve verifyIdToken req o1.2 in
  sent_status o1 = Some 200 ->
  length (holders (user !! "email") (store o2.2)) = 1%nat
  /\ store o2.2 = store o1.2
  /\ Forall (fun ev => is_write ev = false) (events o1.2 o2)
  /\ (forall r, res o2.2 = Some r -> res o1.2 = Some r).
Proof.
  intros Hroute Htok Hver Huniq o1 o2 H200.
  assert (exists u,
             List.find (matches "email" (user !! "email"))
               (users (store o1.2)) = Some u
             /\ holders (user !! "email") (store o1.2) = [u]
             /\ res o1.2 = Some (login_reply u)) as (u & Hfind & Hone & Hres).
  { destruct (List.find (matches "email" (user !! "email"))
                (users (store w))) as [u|] eqn:Hf.
    - destruct (serve_login_found verifyIdToken req w t user u
                  Hroute Htok Hver Hf) as (Hst & _ & _ & Hr).
      fold o1 in Hst, Hr. exists u. rewrite Hst.
      split; [exact Hf|]. split; [by apply find_unique|].
      unfold sent_status in H200.
      destruct (res o1.2) as [r|]; [|discriminate H200].
      by rewrite (Hr r eq_refl).
    - destruct (serve_login_created verifyIdToken req w t user
                  Hroute Htok Hver Hf) as (d & Hus & Hd & Hr).
      { fold o1. unfold sent_status in H200.
        destruct (res o1.2); [by eexists | discriminate H200]. }
      fold o1 in Hus, Hr. exists d.
      apply matches_true in Hd.
      destruct (find_app_none _ _ d Hf Hd) as [Hfd Hfl].
      unfold holders. rewrite Hus. auto. }
  destruct (serve_login_found verifyIdToken req o1.2 t user u
              Hroute Htok Hver Hfind) as (Hst & Hev & _ & Hr).
  fold o2 in Hst, Hev, Hr.
  split; [by rewrite Hst, Hone|].
  split; [exact Hst|]. split; [exact Hev|].
  intros r Hres2. by rewrite (Hr r Hres2).
Qed.

End LoginClaims.

(** ** The role-scoped lists *)

Lemma role_is_other (user : Claims) r r' :
  user !! "role" = Some r -> r <> r' -> role_is user r' = false.
Proof.
  intros H Hne. apply role_is_false. rewrite H. congruence.
Qed.

Lemma docs_lack k (l : list Doc) :
  Forall (lacks k) (VObj <$> map (delete k) l).
Proof.
  induction l as [|d l IH]; simpl; constructor; [|exact IH].
  exists (delete k d). split; [reflexivity | apply lookup_delete_eq].
Qed.

Lemma filter_all {A} (l : list A) : List.filter (fun _ => true) l = l.
Proof. induction l as [|a l IH]; simpl; [done | by rewrite IH]. Qed.

Section Lists.

Variable verifyIdToken : string -> Err + Claims.

(** C7: GET /api/users by an authenticated caller: a student receives
    exactly the users with role professor, a professor exactly the users
    with role student, an admin all users, each without the subject id;
    when the store fails the query, the response is 500 with the error. *)
Theorem users_view_depends_on_role req w t user :
  route_of req = Some Users ->
  bearer_token (authorization req) = Some t ->
  verifyIdToken t = inr user ->
  let o := serve verifyIdToken req w in
  (next_fault w = None ->
     (user !! "role" = Some "student" ->
        res o.2 = Some (view (matches "role" (Some "professor")) (store w)))
     /\ (user !! "role" = Some "professor" ->
        res o.2 = Some (view (matches "role" (Some "student")) (store w)))
     /\ (user !! "role" = Some "admin" ->
        res o.2 = Some (view (fun _ => true) (store w))))
  /\ (forall e,
        next_fault w = Some e ->
        user !! "role" = Some "student"
        \/ user !! "role" = Some "professor"
        \/ user !! "role" = Some "admin" ->
        res o.2
        = Some {| status := 500;
                  payload := Some (failure "Error fetching users" e) |}).
Proof.
  intros Hroute Htok Hver o. subst o.
  unfold serve, app. rewrite Hroute. simpl.
  rewrite (checkAuth_verified _ _ _ _ t user Htok Hver).
  unfold handler, bind, emit, all_users, try_catch, view.
  split.
  - intros Hup. repeat split; intros Hrole.
    + rewrite (role_is_true _ _ Hrole).
      unfold bind, User.find_select, bind, db_call. simpl.
      unfold next_fault in *. simpl. rewrite Hup. reflexivity.
    + rewrite (role_is_other _ _ "student" Hrole) by discriminate.
      rewrite (role_is_true _ _ Hrole).
      unfold bind, User.find_select, bind, db_call. simpl.
      unfold next_fault in *. simpl. rewrite Hup. reflexivity.
    + rewrite (role_is_other _ _ "student" Hrole) by discriminate.
      rewrite (role_is_other _ _ "professor" Hrole) by discriminate.
      rewrite (role_is_true _ _ Hrole).
      unfold bind, User.find_select, bind, db_call. simpl.
      unfold next_fault in *. simpl. rewrite Hup.
      rewrite filter_all. reflexivity.
  - intros e Hdown [Hrole | [Hrole | Hrole]].
    + rewrite (role_is_true _ _ Hrole).
      unfold bind, User.find_select, bind, db_call. simpl.
      unfold next_fault in *. simpl. rewrite Hdown. reflexivity.
    + rewrite (role_is_other _ _ "student" Hrole) by discriminate.
      rewrite (role_is_true _ _ Hrole).
      unfold bind, User.find_select, bind, db_call. simpl.
      unfold next_fault in *. simpl. rewrite Hdown. reflexivity.
    + rewrite (role_is_other _ _ "student" Hrole) by discriminate.
      rewrite (role_is_other _ _ "professor" Hrole) by discriminate.
      rewrite (role_is_true _ _ Hrole).
      unfold bind, User.find_select, bind, db_call. simpl.
      unfold next_fault in *. simpl. rewrite Hdown. reflexivity.
Qed.

(** C9: GET /api/users by an authenticated caller whose claims carry no
    role, or a role that is none of student, professor and admin: no
    query is sent to the store, and the response is 200 with no body. *)
Theorem users_view_without_role req w t user :
  route_of req = Some Users ->
  bearer_token (authorization req) = Some t ->
  verifyIdToken t = inr user ->
  user !! "role" <> Some "student" ->
  user !! "role" <> Some "professor" ->
  user !! "role" <> Some "admin" ->
  let o := serve verifyIdToken req w in
  res o.2 = Some {| status := 200; payload := None |}
  /\ events w o = [EvVerify t; EvHandler Users]
  /\ Forall (fun ev => is_read ev = false) (events w o)
  /\ store o.2 = store w
  /\ faults o.2 = faults w.
Proof.
  intros Hroute Htok Hver Hs Hp Ha o. subst o.
  unfold serve, app. rewrite Hroute. simpl.
  rewrite (checkAuth_verified _ _ _ _ t user Htok Hver).
  unfold handler, bind, emit, all_users, try_catch.
  rewrite (role_is_false _ _ Hs), (role_is_false _ _ Hp),
    (role_is_false _ _ Ha).
  simpl.
  match goal with
  | |- _ /\ events ?w0 ?o0 = _ /\ _ =>
      assert (Hev : events w0 o0 = [EvVerify t; EvHandler Users])
        by (apply events_two; reflexivity)
  end.
  rewrite Hev. repeat split. by repeat constructor.
Qed.

(** C8: in a 200 response of GET /api/users/professors,
    GET /api/users/students or GET /api/users to an authenticated caller,
    every record of the list is without the field firebase_uid. *)
Theorem role_scoped_lists_hide_subject_id req w r t user l :
  route_of req = Some r ->
  r = Professors \/ r = Students \/ r = Users ->
  bearer_token (authorization req) = Some t ->
  verifyIdToken t = inr user ->
  let o := serve verifyIdToken req w in
  res o.2 = Some {| status := 200; payload := Some (VArr l) |} ->
  Forall (lacks "firebase_uid") l.
Proof.
  intros Hroute Hr Htok Hver o. subst o.
  unfold serve, app. rewrite Hroute.
  destruct Hr as [-> | [-> | ->]]; simpl;
    rewrite (checkAuth_verified _ _ _ _ t user Htok Hver);
    unfold handler, bind, emit, professors, students, all_users,
      try_catch, bind, User.find_select, bind, db_call, next_fault;
    repeat match goal with
      | |- context [role_is ?u ?x] => destruct (role_is u x); simpl
      end;
    simpl; destruct (faults w) as [|[e|] fs]; simpl;
    intros [= <-]; apply docs_lack.
Qed.

End Lists.

(** ** The unique indexes are an invariant of the application *)

Lemma existsb_matches_false k v (l : list Doc) :
  existsb (matches k v) l = false ->
  v ∉ (fun d => str_field d k) <$> l.
Proof.
  induction l as [|a l IH]; simpl; [intros _; apply not_elem_of_nil|].
  intros H. apply orb_false_iff in H as [Ha Hl].
  apply not_elem_of_cons. split; [|by apply IH].
  intros ->. unfold matches in Ha.
  by rewrite bool_decide_eq_true_2 in Ha.
Qed.

Lemma NoDup_snoc_field k (d : Doc) (l : list Doc) :
  NoDup ((fun d => str_field d k) <$> l) ->
  existsb (matches k (str_field d k)) l = false ->
  NoDup ((fun d => str_field d k) <$> (l ++ [d])%list).
Proof.
  intros Hnd Hex. rewrite fmap_app. apply NoDup_app.
  split; [exact Hnd|]. split.
  - intros x Hx Hin. apply list_elem_of_singleton in Hin. subst x.
    by apply (existsb_matches_false _ _ _ Hex).
  - apply NoDup_singleton.
Qed.

Section Invariant.

Variable verifyIdToken : string -> Err + Claims.

(** A request leaves the users as they are or adds one whose subject id
    and e-mail no user had. *)
Lemma serve_users req w :
  let o := serve verifyIdToken req w in
  users (store o.2) = users (store w)
  \/ exists d : Doc,
       users (store o.2) = (users (store w) ++ [d])%list
       /\ existsb (matches "email" (str_field d "email"))
            (users (store w)) = false
       /\ existsb (matches "firebase_uid" (str_field d "firebase_uid"))
            (users (store w)) = false.
Proof.
  unfold serve, app.
  destruct (route_of req) as [r|]; [|by left].
  assert (Hauth : forall next : Claims -> M unit,
             (forall user w0,
                 store w0 = store w -> res w0 = None ->
                 let o := next user w0 in
                 users (store o.2) = users (store w)
                 \/ exists d : Doc,
                      users (store o.2) = (users (store w) ++ [d])%list
                      /\ existsb (matches "email" (str_field d "email"))
                           (users (store w)) = false
                      /\ existsb
                           (matches "firebase_uid"
                              (str_field d "firebase_uid"))
                           (users (store w)) = false) ->
             let o := checkAuth verifyIdToken req next (fresh_res w) in
             users (store o.2) = users (store w)
             \/ exists d : Doc,
                  users (store o.2) = (users (store w) ++ [d])%list
                  /\ existsb (matches "email" (str_field d "email"))
                       (users (store w)) = false
                  /\ existsb
                       (matches "firebase_uid"
                          (str_field d "firebase_uid"))
                       (users (store w)) = false).
  { intros next Hnext. unfold checkAuth, bind, emit.
    destruct (bearer_token (authorization req)) as [t|]; [|by left].
    destruct (verifyIdToken t) as [?|user]; [by left|].
    by apply Hnext. }
  assert (Hw : store (fresh_res w) = store w) by reflexivity.
  assert (Hr : res (fresh_res w) = None) by reflexivity.
  destruct r; simpl;
    first [ apply Hauth; intros user w0 Hst Hres
          | generalize (fresh_res w), Hw, Hr; intros w0 Hst Hres ];
    unfold handler, login, professors, students, all_users, post_research,
      get_research, apply_research, get_discussions, try_catch,
      User.findOne, User.find_select, User.new, User.save, Research.new,
      Research.save, Research.find_populate, bind, db_call,
      next_fault, emit, res_json, get_store, put_store, fresh_id, ret,
      throw, called, log, answer, with_store, next_id;
    repeat (simpl; rewrite ?Hst, ?Hres; try (by left);
            match goal with
            | |- context [match faults ?x with _ => _ end] =>
                destruct (faults x) as [|[?|] ?]
            | |- context [role_is ?u ?x] => destruct (role_is u x)
            | |- context [List.find ?f ?l] => destruct (List.find f l)
            | |- context [User.validate ?d] => destruct (User.validate d)
            | |- context [Research.validate ?d] =>
                destruct (Research.validate d)
            | |- context [match ?l with [] => _ | _ :: _ => _ end] =>
                destruct l as [|[?|] ?]
            | |- context [if existsb ?f ?l then _ else _] =>
                destruct (existsb f l) eqn:?
            end);
    (right; eexists; split; [reflexivity|]; split; assumption).
Qed.

(** The unique indexes of the User schema hold after every request. *)
Lemma serve_keeps_indexes req w :
  email_unique (store w) /\ uid_unique (store w) ->
  let o := serve verifyIdToken req w in
  email_unique (store o.2) /\ uid_unique (store o.2).
Proof.
  intros [He Hu] o. unfold email_unique, uid_unique.
  destruct (serve_users req w) as [Hsame | (d & Hadd & Hem & Hid)];
    fold o in Hsame || fold o in Hadd.
  - by rewrite Hsame.
  - rewrite Hadd. split; by apply NoDup_snoc_field.
Qed.

End Invariant.

(** ** Persistence failures *)

Section Failures.

Variable verifyIdToken : string -> Err + Claims.

(** The list handlers catch a failure of the query and answer 500 with
    the error. *)
Lemma professors_failure_is_500 req w t user e :
  route_of req = Some Professors ->
  bearer_token (authorization req) = Some t ->
  verifyIdToken t = inr user ->
  user !! "role" = Some "student" ->
  next_fault w = Some e ->
  let o := serve verifyIdToken req w in
  o.1 = Ok tt
  /\ res o.2
     = Some {| status := 500;
               payload := Some (failure "Error fetching professors" e) |}.
Proof.
  intros Hroute Htok Hver Hrole Hdown o. subst o.
  unfold serve, app. rewrite Hroute. simpl.
  rewrite (checkAuth_verified _ _ _ _ t user Htok Hver).
  unfold handler, bind, emit, professors, try_catch.
  rewrite (role_is_true _ _ Hrole).
  unfold bind, User.find_select, bind, db_call. simpl.
  unfold next_fault in *. simpl. rewrite Hdown. by split.
Qed.

End Failures.

(** ** Instances on the sample data *)

(** C6: at a failing store, the handlers of POST /api/research and
    POST /api/auth/login reject without sending a response (no 500, no
    error in a body), while GET /api/users/professors, which has the
    [catch], answers 500 with the error.  POST /api/apply sends no response
    either: it rejects before it reaches the store, [Application] being
    undeclared. *)
Theorem write_handlers_leave_store_failure_unanswered :
  let down := init_world sample_store [Some connection_lost] in
  let research :=
    serve sample_verifier
      (request POST "/api/research" (Some "professor-token") research_body)
      down in
  let application :=
    serve sample_verifier
      (request POST "/api/apply" (Some "student-token") application_body)
      down in
  let login :=
    serve sample_verifier
      (request POST "/api/auth/login" (Some "newcomer-token") ∅) down in
  let professors :=
    serve sample_verifier
      (request GET "/api/users/professors" (Some "student-token") ∅) down in
  (research.1 = Rejected connection_lost /\ res research.2 = None)
  /\ (application.1 = Rejected (ReferenceError "Application")
      /\ res application.2 = None)
  /\ (login.1 = Rejected connection_lost /\ res login.2 = None)
  /\ sent_status professors = Some 500.
Proof. vm_compute. repeat split. Qed.

Lemma unauthenticated_request_is_401_witness :
  let w := init_world sample_store [] in
  let o :=
    serve sample_verifier
      (request POST "/api/research" (Some "forged-token") research_body) w in
  sent_status o = Some 401
  /\ store o.2 = store w
  /\ Forall (fun ev => is_handler ev = false /\ is_write ev = false)
       (events w o).
Proof.
  apply (unauthenticated_request_is_401 sample_verifier _ _ PostResearch).
  - reflexivity.
  - reflexivity.
  - right. intros t Ht. vm_compute in Ht. injection Ht as <-.
    eexists. reflexivity.
Defined.

Lemma role_mismatch_is_403_witness :
  let w := init_world sample_store [] in
  let o :=
    serve sample_verifier
      (request POST "/api/research" (Some "student-token") research_body) w in
  sent_status o = Some 403
  /\ store o.2 = store w
  /\ faults o.2 = faults w
  /\ ids o.2 = ids w
  /\ events w o = [EvVerify "student-token"; EvHandler PostResearch].
Proof.
  apply (role_mismatch_is_403 sample_verifier _ _ PostResearch "professor"
           "student-token"
           {[ "uid" := "uid-sam"; "email" := "sam@uni.edu";
              "name" := "Sam"; "role" := "student" ]}).
  - reflexivity.
  - reflexivity.
  - reflexivity.
  - reflexivity.
  - vm_compute. discriminate.
Defined.

Lemma student_application_throws_witness :
  let w := init_world sample_store [] in
  let o :=
    serve sample_verifier
      (request POST "/api/apply" (Some "student-token") application_body) w in
  o.1 = Rejected (ReferenceError "Application")
  /\ res o.2 = None
  /\ store o.2 = store w
  /\ faults o.2 = faults w
  /\ events w o = [EvVerify "student-token"; EvHandler Apply].
Proof.
  refine (student_application_throws sample_verifier
            (request POST "/api/apply" (Some "student-token")
               application_body)
            (init_world sample_store []) "student-token"
            {[ "uid" := "uid-sam"; "email" := "sam@uni.edu";
               "name" := "Sam"; "role" := "student" ]} _ _ _ _);
    reflexivity.
Defined.

Lemma public_lists_research_answers_discussions_throws_witness :
  (let w := init_world listing_store [] in
   let o := serve sample_verifier (request GET "/api/research" None ∅) w in
   exists l : list Val,
     res o.2 = Some {| status := 200; payload := Some (VArr l) |}
     /\ length l = 1%nat)
  /\ (let w := init_world listing_store [] in
      let o :=
        serve sample_verifier (request GET "/api/discussions" None ∅) w in
      o.1 = Rejected (ReferenceError "Discussion")
      /\ res o.2 = None
      /\ store o.2 = store w
      /\ events w o = [EvHandler Discussions]).
Proof.
  split.
  - destruct (public_lists_research_answers_discussions_throws
                sample_verifier (request GET "/api/research" None ∅)
                (init_world listing_store []) GetResearch
                eq_refl (or_introl eq_refl)) as (_ & _ & _ & Hlist & _).
    destruct (Hlist eq_refl) as (l & Hres & Hlen & _).
    + unfold calm. simpl. constructor.
    + exists l. split; [exact Hres | exact Hlen].
  - destruct (public_lists_research_answers_discussions_throws
                sample_verifier (request GET "/api/discussions" None ∅)
                (init_world listing_store []) Discussions
                eq_refl (or_intror eq_refl)) as (_ & _ & _ & _ & Hthrows).
    exact (Hthrows eq_refl).
Defined.

Lemma login_of_known_email_writes_nothing_witness :
  let w := init_world sample_store [] in
  let o :=
    serve sample_verifier
      (request POST "/api/auth/login" (Some "moved-token") ∅) w in
  exists u : Doc,
    u ∈ users (store w)
    /\ str_field u "email" = Some "pat@uni.edu"
    /\ store o.2 = store w
    /\ Forall (fun ev => is_write ev = false) (events w o)
    /\ (next_fault w = None -> res o.2 = Some (login_reply u)).
Proof.
  refine (login_of_known_email_writes_nothing sample_verifier
            (request POST "/api/auth/login" (Some "moved-token") ∅)
            (init_world sample_store []) "moved-token"
            {[ "uid" := "uid-pat-2"; "email" := "pat@uni.edu";
               "name" := "Patricia" ]} _ _ _ _).
  - reflexivity.
  - reflexivity.
  - reflexivity.
  - exists pat. split; [|reflexivity].
    simpl. apply list_elem_of_here.
Defined.

Lemma login_twice_one_record_witness :
  let req := request POST "/api/auth/login" (Some "newcomer-token") ∅ in
  let w := init_world sample_store [] in
  let o1 := serve sample_verifier req w in
  let o2 := serve sample_verifier req o1.2 in
  length (holders (Some "kim@uni.edu") (store o2.2)) = 1%nat
  /\ store o2.2 = store o1.2
  /\ Forall (fun ev => is_write ev = false) (events o1.2 o2)
  /\ (forall r, res o2.2 = Some r -> res o1.2 = Some r).
Proof.
  refine (login_twice_one_record sample_verifier
            (request POST "/api/auth/login" (Some "newcomer-token") ∅)
            (init_world sample_store []) "newcomer-token"
            {[ "uid" := "uid-kim"; "email" := "kim@uni.edu";
               "name" := "Kim" ]} _ _ _ _ _).
  - reflexivity.
  - reflexivity.
  - reflexivity.
  - apply (bool_decide_unpack _). vm_compute. exact I.
  - vm_compute. reflexivity.
Defined.

(** C5 as stated fails for an identity whose subject id a stored user holds
    under another e-mail: neither login is answered, no record carries the
    identity's e-mail afterwards, and the second login does not retrieve a
    record but sends an insert again. *)
Lemma login_twice_of_renamed_identity :
  let req := request POST "/api/auth/login" (Some "renamed-token") ∅ in
  let w := init_world sample_store [] in
  let o1 := serve renamed_verifier req w in
  let o2 := serve renamed_verifier req o1.2 in
  renamed_verifier "renamed-token"
  = inr {[ "uid" := "uid-pat"; "email" := "pat@new.edu"; "name" := "Pat" ]}
  /\ email_unique (store w)
  /\ length (holders (Some "pat@new.edu") (store o2.2)) <> 1%nat
  /\ holders (Some "pat@new.edu") (store o2.2) = []
  /\ o1.1 = Rejected (DuplicateKey "firebase_uid")
  /\ o2.1 = Rejected (DuplicateKey "firebase_uid")
  /\ res o1.2 = None
  /\ res o2.2 = None
  /\ events o1.2 o2
     = [EvVerify "renamed-token"; EvHandler Login; EvRead CUser;
        EvWrite CUser].
Proof.
  split; [reflexivity|].
  split; [apply (bool_decide_unpack _); vm_compute; exact I|].
  vm_compute. repeat split. discriminate.
Qed.

Lemma users_view_depends_on_role_witness :
  let w := init_world sample_store [] in
  let o :=
    serve sample_verifier
      (request GET "/api/users" (Some "student-token") ∅) w in
  res o.2 = Some (view (matches "role" (Some "professor")) (store w)).
Proof.
  pose proof (users_view_depends_on_role sample_verifier
                (request GET "/api/users" (Some "student-token") ∅)
                (init_world sample_store []) "student-token"
                {[ "uid" := "uid-sam"; "email" := "sam@uni.edu";
                   "name" := "Sam"; "role" := "student" ]}
                eq_refl eq_refl eq_refl) as [Hup _].
  destruct (Hup eq_refl) as [Hstudent _].
  exact (Hstudent eq_refl).
Defined.

Lemma role_scoped_lists_hide_subject_id_witness :
  Forall (lacks "firebase_uid") [VObj (delete "firebase_uid" pat)].
Proof.
  refine (role_scoped_lists_hide_subject_id sample_verifier
            (request GET "/api/users/professors" (Some "student-token") ∅)
            (init_world sample_store []) Professors "student-token"
            {[ "uid" := "uid-sam"; "email" := "sam@uni.edu";
               "name" := "Sam"; "role" := "student" ]} _ _ _ _ _ _).
  - reflexivity.
  - left. reflexivity.
  - reflexivity.
  - reflexivity.
  - vm_compute. reflexivity.
Defined.

Lemma users_view_without_role_witness :
  let w := init_world sample_store [] in
  let o :=
    serve sample_verifier
      (request GET "/api/users" (Some "newcomer-token") ∅) w in
  res o.2 = Some {| status := 200; payload := None |}
  /\ events w o = [EvVerify "newcomer-token"; EvHandler Users]
  /\ Forall (fun ev => is_read ev = false) (events w o)
  /\ store o.2 = store w
  /\ faults o.2 = faults w.
Proof.
  refine (users_view_without_role sample_verifier
            (request GET "/api/users" (Some "newcomer-token") ∅)
            (init_world sample_store []) "newcomer-token"
            {[ "uid" := "uid-kim"; "email" := "kim@uni.edu";
               "name" := "Kim" ]} _ _ _ _ _ _);
    try reflexivity; vm_compute; discriminate.
Defined.

(** * Further properties of the code *)

(** ** The token extraction of [checkAuth] *)

Lemma append_cons c (s t : string) : String c s +:+ t = String c (s +:+ t).
Proof. reflexivity. Qed.

Lemma append_nil_l (s : string) : "" +:+ s = s.
Proof. reflexivity. Qed.

Lemma append_nil_r (s : string) : s +:+ "" = s.
Proof.
  induction s as [|c s IH]; [done|]. by rewrite append_cons, IH.
Qed.

Lemma append_assoc (a b c : string) : (a +:+ b) +:+ c = a +:+ (b +:+ c).
Proof.
  induction a as [|x a IH]; [done|]. by rewrite !append_cons, IH.
Qed.

Lemma split_go_no_occurrence sep cur s :
  occurs sep s = false -> split_go sep 0 cur s = [cur +:+ s].
Proof.
  revert cur. induction s as [|c s IH]; intros cur Hocc.
  - simpl. by rewrite append_nil_r.
  - cbn [occurs] in Hocc. apply orb_false_iff in Hocc as [Hp Hs].
    cbn [split_go]. rewrite Hp, IH by exact Hs.
    by rewrite append_assoc.
Qed.

Lemma split_go_skip sep cur u s :
  split_go sep (String.length u) cur (u +:+ s) = split_go sep 0 cur s.
Proof.
  induction u as [|c u IH]; [done|].
  rewrite append_cons. cbn [String.length split_go]. exact IH.
Qed.

Lemma prefix_drop sep s :
  String.prefix sep s = true ->
  s = sep +:+ string_drop (String.length sep) s.
Proof.
  revert s. induction sep as [|a sep IH]; intros s Hp; [done|].
  destruct s as [|b s]; simpl in Hp; [discriminate|].
  destruct (ascii_dec a b) as [->|]; [|discriminate].
  rewrite append_cons. cbn [String.length string_drop].
  f_equal. by apply IH.
Qed.

Lemma split_go_nonempty sep skip cur s : split_go sep skip cur s <> [].
Proof.
  revert skip cur.
  induction s as [|c s IH]; intros skip cur; cbn [split_go]; [done|].
  destruct skip; [|apply IH].
  destruct (String.prefix sep (String c s)); [done | apply IH].
Qed.

Lemma join_cons sep x l :
  l <> [] -> join sep (x :: l) = x +:+ sep +:+ join sep l.
Proof. destruct l; [done | reflexivity]. Qed.

(** Joining the pieces with the separator gives the string back; with
    characters still to skip, what is left after them. *)
Lemma join_split_go sep skip cur s :
  sep <> "" ->
  join sep (split_go sep skip cur s) = cur +:+ string_drop skip s.
Proof.
  intros Hsep. revert skip cur.
  induction s as [|c s IH]; intros skip cur.
  - destruct skip; cbn [split_go join string_drop];
      by rewrite append_nil_r.
  - destruct skip as [|k].
    + cbn [split_go string_drop].
      destruct (String.prefix sep (String c s)) eqn:Hp.
      * rewrite join_cons by apply split_go_nonempty.
        rewrite IH, append_nil_l. f_equal.
        etrans; [|symmetry; apply (prefix_drop _ _ Hp)].
        f_equal. destruct sep as [|a sep]; [done|].
        replace (String.length (String a sep) - 1)%nat
          with (String.length sep) by (simpl; lia).
        reflexivity.
      * rewrite IH, append_assoc. reflexivity.
    + cbn [split_go string_drop]. apply IH.
Qed.

(** Splitting a string at a non-empty separator and joining the pieces
    with that separator gives the string back. *)
Lemma join_split sep s :
  sep <> "" -> join sep (split sep s) = s.
Proof.
  intros Hsep. unfold split. by rewrite join_split_go.
Qed.

(** X1: the token of a header [Bearer t], for a non-empty [t] in which
    [Bearer ] does not occur again, is [t]. *)
Theorem bearer_token_of_bearer_header t :
  t <> "" ->
  occurs "Bearer " t = false ->
  bearer_token (Some ("Bearer " +:+ t)) = Some t.
Proof.
  intros Ht Hocc. unfold bearer_token, split.
  change ("Bearer " +:+ t) with (String "B" ("earer " +:+ t)).
  cbn [split_go].
  assert (String.prefix "Bearer " (String "B" ("earer " +:+ t)) = true)
    as ->.
  { simpl. repeat (destruct (ascii_dec _ _); [|done]). by destruct t. }
  change (String.length "Bearer " - 1)%nat with (String.length "earer ").
  rewrite split_go_skip, split_go_no_occurrence by exact Hocc.
  simpl. by destruct t.
Qed.

(** X2: a token that [checkAuth] extracts is not empty and stands in the
    header right after an occurrence of [Bearer ]; what follows it is
    nothing or begins with [Bearer ] again. *)
Theorem bearer_token_in_header h t :
  bearer_token (Some h) = Some t ->
  t <> ""
  /\ exists before after : string,
       h = before +:+ "Bearer " +:+ t +:+ after
       /\ (after = "" \/ String.prefix "Bearer " after = true).
Proof.
  unfold bearer_token. intros Htok.
  pose proof (join_split "Bearer " h ltac:(done)) as Hjoin.
  destruct (split "Bearer " h) as [|before [|t' rest]]; try discriminate Htok.
  simpl in Htok.
  assert (t' = t /\ t <> "") as [-> Hne].
  { destruct t'; [discriminate Htok|]. by injection Htok as <-. }
  split; [exact Hne|].
  destruct rest as [|x rest].
  - exists before, "". rewrite <- Hjoin. simpl.
    rewrite append_nil_r. auto.
  - exists before, ("Bearer " +:+ join "Bearer " (x :: rest)).
    rewrite <- Hjoin. split; [reflexivity|]. right.
    simpl. repeat (destruct (ascii_dec _ _); [|done]).
    by destruct (match rest with [] => x | _ :: _ => _ end).
Qed.

(** ** The shape of a request's run *)

Lemma events_none (w : World) (o : Result unit * World) :
  trace o.2 = trace w -> events w o = [].
Proof. intros H. unfold events. rewrite H. apply drop_all. Qed.

(** Unfolds the handlers and the operations they are made of. *)
Ltac unfold_handlers :=
  unfold handler_of, handler, login, professors, students, all_users,
    post_research, get_research, apply_research, get_discussions,
    try_catch, User.findOne, User.find_select, User.new, User.save,
    Research.new, Research.save, Research.find_populate, bind, db_call,
    next_fault,
    emit, res_json, get_store, put_store, fresh_id, ret, throw, called,
    log, answer, with_store, next_id, fresh_res.

(** One case split on what a handler branches on. *)
Ltac branch :=
  match goal with
  | |- context [match faults ?x with _ => _ end] =>
      destruct (faults x) as [|[?|] ?]
  | |- context [role_is ?u ?x] => destruct (role_is u x) eqn:?
  | |- context [List.find ?f ?l] => destruct (List.find f l) eqn:?
  | |- context [User.validate ?d] => destruct (User.validate d) eqn:?
  | |- context [Research.validate ?d] =>
      destruct (Research.validate d) eqn:?
  | |- context [match ?l with [] => _ | _ :: _ => _ end] =>
      destruct l as [|[?|] ?]
  | |- context [if existsb ?f ?l then _ else _] =>
      destruct (existsb f l) eqn:?
  end.

(** Runs a handler through all its branches, closing each with [tac]. *)
Ltac run_all tac :=
  unfold_handlers; repeat (simpl; try solve [tac]; branch).

Section Runs.

Variable verifyIdToken : string -> Err + Claims.

Lemma dispatch_handler_of r req :
  dispatch verifyIdToken r req
  = if protected r
    then checkAuth verifyIdToken req
           (fun user => handler r (handler_of r user req))
    else handler r (handler_of r ∅ req).
Proof. by destruct r. Qed.

(** The three ways a request to a protected route goes. *)
Lemma serve_protected_cases (P : Result unit * World -> Prop) req w r :
  route_of req = Some r ->
  protected r = true ->
  (bearer_token (authorization req) = None ->
   P (Ok tt,
      answer 401 (Some (message "Unauthorized: No token provided"))
        (fresh_res w))) ->
  (forall t e,
      bearer_token (authorization req) = Some t ->
      verifyIdToken t = inl e ->
      P (Ok tt,
         answer 401 (Some (message "Unauthorized: Invalid token"))
           (log (EvVerify t) (fresh_res w)))) ->
  (forall t user,
      bearer_token (authorization req) = Some t ->
      verifyIdToken t = inr user ->
      P (handler_of r user req
           (log (EvHandler r) (log (EvVerify t) (fresh_res w))))) ->
  P (serve verifyIdToken req w).
Proof.
  intros Hroute Hprot Hnone Hbad Hok.
  unfold serve, app. rewrite Hroute, dispatch_handler_of, Hprot.
  destruct (bearer_token (authorization req)) as [t|] eqn:Htok.
  - destruct (verifyIdToken t) as [e|user] eqn:Hver.
    + rewrite (checkAuth_invalid _ _ _ (fresh_res w) t e eq_refl Htok Hver).
      exact (Hbad t e eq_refl Hver).
    + rewrite (checkAuth_verified _ _ _ _ t user Htok Hver).
      exact (Hok t user eq_refl Hver).
  - rewrite (checkAuth_no_token _ _ _ (fresh_res w) eq_refl Htok).
    exact (Hnone eq_refl).
Qed.

Lemma serve_public req w r :
  route_of req = Some r ->
  protected r = false ->
  serve verifyIdToken req w
  = handler_of r ∅ req (log (EvHandler r) (fresh_res w)).
Proof.
  intros Hroute Hprot.
  unfold serve, app. by rewrite Hroute, dispatch_handler_of, Hprot.
Qed.

Lemma serve_unrouted req w :
  route_of req = None ->
  serve verifyIdToken req w = (Ok tt, answer 404 None (fresh_res w)).
Proof. intros Hroute. unfold serve, app. by rewrite Hroute. Qed.

(** X3: on a protected route the response is 401 exactly when the
    authentication fails: no token can be extracted from the header, or the
    verifier refuses the token. *)
Theorem status_401_iff_authentication_fails req w r :
  route_of req = Some r ->
  protected r = true ->
  let o := serve verifyIdToken req w in
  sent_status o = Some 401
  <-> match bearer_token (authorization req) with
      | Some t => exists e, verifyIdToken t = inl e
      | None => True
      end.
Proof.
  intros Hroute Hprot o. subst o.
  pattern (serve verifyIdToken req w).
  apply (serve_protected_cases _ req w r Hroute Hprot).
  - intros ->. done.
  - intros t e -> He. split; [by eauto | done].
  - intros t user -> Hver. rewrite Hver.
    split; [|by intros [e [=]]].
    destruct r; try discriminate Hprot;
      run_all ltac:(discriminate).
Qed.

End Runs.

Lemma route_of_GET req r :
  route_of req = Some r ->
  method req = GET ->
  r = Professors \/ r = Students \/ r = Users \/ r = GetResearch
  \/ r = Discussions.
Proof.
  unfold route_of, routes. intros Hr Hm. rewrite Hm in Hr.
  cbn in Hr.
  repeat (case_bool_decide; cbn in Hr);
    first [congruence | injection Hr as <-; tauto].
Qed.

(** Computes the events of a run, also when there are none. *)
Ltac events_run :=
  first [ rewrite events_none by reflexivity
        | unfold events; simpl; rewrite <- ?app_assoc;
          rewrite drop_app_length; simpl ].

Ltac close_403 :=
  simpl; split;
  [ first
      [ solve [intros [=]]
      | solve [intros _; eexists; split; [reflexivity|];
               match goal with
               | H : role_is _ _ = false |- _ =>
                   by apply bool_decide_eq_false_1 in H
               end] ]
  | first
      [ done
      | solve [intros (role & Hr & Hne); simpl in Hr;
               first
                 [ discriminate Hr
                 | injection Hr as <-; exfalso; apply Hne;
                   match goal with
                   | H : role_is _ _ = true |- _ =>
                       by apply bool_decide_eq_true_1 in H
                   end ]] ] ].

Section Statuses.

Variable verifyIdToken : string -> Err + Claims.

(** X4: for an authenticated request the response is 403 exactly when the
    route has a role guard and the role of the claims is not the one the
    guard asks for; routes without a guard never answer 403. *)
Theorem status_403_iff_role_mismatch req w r t user :
  route_of req = Some r ->
  bearer_token (authorization req) = Some t ->
  verifyIdToken t = inr user ->
  let o := serve verifyIdToken req w in
  sent_status o = Some 403
  <-> exists role, required_role r = Some role /\ user !! "role" <> Some role.
Proof.
  intros Hroute Htok Hver o. subst o.
  unfold serve, app. rewrite Hroute, dispatch_handler_of.
  destruct (protected r) eqn:Hprot;
    rewrite ?(checkAuth_verified _ _ _ _ t user Htok Hver);
    destruct r; try discriminate Hprot;
    run_all close_403.
Qed.

(** X5: a GET request never changes the store and sends no insert to it,
    whatever its route, its headers and the state of the store. *)
Theorem get_requests_never_write req w :
  method req = GET ->
  let o := serve verifyIdToken req w in
  store o.2 = store w
  /\ Forall (fun ev => is_write ev = false) (events w o).
Proof.
  intros Hm o. subst o.
  destruct (route_of req) as [r|] eqn:Hroute.
  - pose proof (route_of_GET req r Hroute Hm) as Hr.
    destruct (protected r) eqn:Hprot.
    + pattern (serve verifyIdToken req w).
      apply (serve_protected_cases _ _ req w r Hroute Hprot).
      * intros _. split; [reflexivity|]. by rewrite events_none.
      * intros t e _ _. split; [reflexivity|].
        events_run. by repeat constructor.
      * intros t user _ _.
        destruct Hr as [-> | [-> | [-> | [-> | ->]]]];
          try discriminate Hprot;
          run_all ltac:(split; [reflexivity|];
                        events_run; by repeat constructor).
    + rewrite (serve_public _ req w r Hroute Hprot).
      destruct Hr as [-> | [-> | [-> | [-> | ->]]]];
        try discriminate Hprot;
        run_all ltac:(split; [reflexivity|];
                      events_run; by repeat constructor).
  - rewrite (serve_unrouted _ req w Hroute).
    split; [reflexivity|]. by rewrite events_none.
Qed.

(** X6: whatever the request, at most one insert is sent to the store
    while it is served, and at most two calls in all (the query and the
    insert of a login, the two queries of GET /api/research): no handler
    writes twice or repeats a call that failed. *)
Theorem request_sends_at_most_one_insert req w :
  let o := serve verifyIdToken req w in
  (length (List.filter is_write (events w o)) <= 1)%nat
  /\ (length (List.filter is_read (events w o))
      + length (List.filter is_write (events w o)) <= 2)%nat.
Proof.
  intros o. subst o.
  destruct (route_of req) as [r|] eqn:Hroute.
  - destruct (protected r) eqn:Hprot.
    + pattern (serve verifyIdToken req w).
      apply (serve_protected_cases _ _ req w r Hroute Hprot).
      * intros _. rewrite events_none by reflexivity. simpl. lia.
      * intros t e _ _. events_run. lia.
      * intros t user _ _.
        destruct r; try discriminate Hprot;
          run_all ltac:(events_run; lia).
    + rewrite (serve_public _ req w r Hroute Hprot).
      destruct r; try discriminate Hprot;
        run_all ltac:(events_run; lia).
  - rewrite (serve_unrouted _ req w Hroute).
    rewrite events_none by reflexivity. simpl. lia.
Qed.

(** X7: the token verifier is called once, with the token taken from the
    header, when a request to a protected route carries a token; it is not
    called when there is no token, nor for the public routes. *)
Theorem verifier_called_once_for_a_token req w r :
  route_of req = Some r ->
  let o := serve verifyIdToken req w in
  List.filter is_verify (events w o)
  = if protected r
    then match bearer_token (authorization req) with
         | Some t => [EvVerify t]
         | None => []
         end
    else [].
Proof.
  intros Hroute o. subst o.
  destruct (protected r) eqn:Hprot.
  - pattern (serve verifyIdToken req w).
    apply (serve_protected_cases _ _ req w r Hroute Hprot).
    + intros ->. by rewrite events_none.
    + intros t e -> _. by events_run.
    + intros t user -> _.
      destruct r; try discriminate Hprot;
        run_all ltac:(by events_run).
  - rewrite (serve_public _ req w r Hroute Hprot).
    destruct r; try discriminate Hprot;
      run_all ltac:(by events_run).
Qed.

End Statuses.

(** ** The role-scoped lists of professors and of students *)

Section RoleLists.

Variable verifyIdToken : string -> Err + Claims.

(** X8: GET /api/users/professors by a student, and GET /api/users/students
    by a professor: when the store answers, the response is 200 with
    exactly the users of the listed role, each without the subject id; when
    the query fails, the response is 500 with the route's message and the
    error; the store is unchanged either way. *)
Theorem role_list_answers req w r t user role other :
  route_of req = Some r ->
  required_role r = Some role ->
  listed_role r = Some other ->
  bearer_token (authorization req) = Some t ->
  verifyIdToken t = inr user ->
  user !! "role" = Some role ->
  let o := serve verifyIdToken req w in
  (next_fault w = None ->
   res o.2 = Some (view (matches "role" (Some other)) (store w)))
  /\ (forall e,
        next_fault w = Some e ->
        res o.2
        = Some {| status := 500;
                  payload :=
                    Some (failure ("Error fetching " +:+ other +:+ "s") e) |})
  /\ store o.2 = store w.
Proof.
  intros Hroute Hreq Hlist Htok Hver Hrole o. subst o.
  unfold serve, app. rewrite Hroute.
  destruct r; try discriminate Hlist;
    injection Hlist as <-; injection Hreq as <-; simpl;
    rewrite (checkAuth_verified _ _ _ _ t user Htok Hver);
    unfold handler, bind, emit, professors, students, try_catch;
    rewrite (role_is_true _ _ Hrole);
    unfold bind, User.find_select, bind, db_call, next_fault, view; simpl;
    destruct (faults w) as [|[e0|] fs]; simpl;
    (split; [intros Hup; first [discriminate Hup | reflexivity]|]);
    (split; [intros e He; first [discriminate He
                                | by injection He as <-]
            | reflexivity]).
Qed.

End RoleLists.

(** ** Login of a new identity *)

Lemma calm_next n w : calm (S n) w -> next_fault w = None.
Proof.
  unfold calm, next_fault. destruct (faults w) as [|[e|] fs]; try done.
  simpl. intros H. by apply Forall_cons_1 in H as [? _].
Qed.

Lemma calm_called n ev w : calm (S n) w -> calm n (called ev w).
Proof.
  unfold calm. simpl. destruct (faults w) as [|f fs]; simpl.
  - intros _. rewrite take_nil. constructor.
  - intros H. by apply Forall_cons_1 in H as [_ ?].
Qed.

Lemma find_none_existsb {A} (f : A -> bool) l :
  List.find f l = None -> existsb f l = false.
Proof.
  induction l as [|a l IH]; simpl; [done|].
  destruct (f a); [discriminate | exact IH].
Qed.

Lemma existsb_matches_true k v (l : list Doc) :
  (exists d, d ∈ l /\ str_field d k = v) -> existsb (matches k v) l = true.
Proof.
  intros (d & Hin & Hd). apply existsb_exists. exists d.
  split; [by apply list_elem_of_In | by apply matches_true].
Qed.

(** The document [new User] builds from the claims. *)
Lemma new_user_fields (uid name email : option string) (id : Val) :
  let d :=
    with_field "firebase_uid" (VStr <$> uid)
      (with_field "full_name" (VStr <$> name)
         (with_field "email" (VStr <$> email)
            {[ "_id" := id; "role" := VStr "student";
               "research_interests" := VArr [] ]})) in
  str_field d "firebase_uid" = uid
  /\ d !! "full_name" = VStr <$> name
  /\ str_field d "email" = email
  /\ d !! "role" = Some (VStr "student").
Proof.
  intros d. subst d. repeat split.
  - unfold str_field. rewrite with_field_lookup; [by destruct uid|].
    rewrite !with_field_lookup_ne by done. reflexivity.
  - rewrite with_field_lookup_ne by done.
    rewrite with_field_lookup; [done|].
    rewrite with_field_lookup_ne by done. reflexivity.
  - apply new_user_email. reflexivity.
  - rewrite !with_field_lookup_ne by done. reflexivity.
Qed.

Lemma validate_new_user (d : Doc) uid :
  str_field d "firebase_uid" = Some uid ->
  uid <> "" ->
  d !! "role" = Some (VStr "student") ->
  User.validate d = None.
Proof.
  intros Hu Hne Hr. unfold User.validate. rewrite Hu, Hr.
  destruct uid; [done|]. reflexivity.
Qed.

Section NewLogin.

Variable verifyIdToken : string -> Err + Claims.

(** X9: the first login of an identity, when no user holds its e-mail or
    its subject id and the store answers: the response is 200 with a new
    User record, appended to the users, that carries the subject id, the
    name and the e-mail of the claims and the role student. *)
Theorem first_login_creates_a_student req w t user uid :
  route_of req = Some Login ->
  bearer_token (authorization req) = Some t ->
  verifyIdToken t = inr user ->
  user !! "uid" = Some uid ->
  uid <> "" ->
  List.find (matches "email" (user !! "email")) (users (store w)) = None ->
  existsb (matches "firebase_uid" (Some uid)) (users (store w)) = false ->
  calm 2 w ->
  let o := serve verifyIdToken req w in
  exists d : Doc,
    users (store o.2) = (users (store w) ++ [d])%list
    /\ str_field d "firebase_uid" = Some uid
    /\ d !! "full_name" = VStr <$> user !! "name"
    /\ str_field d "email" = user !! "email"
    /\ str_field d "role" = Some "student"
    /\ res o.2 = Some (login_reply d)
    /\ researches (store o.2) = researches (store w)
    /\ applications (store o.2) = applications (store w).
Proof.
  intros Hroute Htok Hver Huid Hne Hfind Hfree Hcalm o. subst o.
  pose proof (calm_next _ _ Hcalm) as Hup1.
  pose proof (calm_next _ _ (calm_called _ (EvRead CUser) _ Hcalm)) as Hup2.
  unfold serve, app. rewrite Hroute. simpl.
  rewrite (checkAuth_verified _ _ _ _ t user Htok Hver).
  unfold handler, bind, emit, login, User.findOne, bind, db_call.
  unfold next_fault in *. simpl in *. rewrite Hup1. simpl.
  rewrite Hfind. simpl.
  match goal with
  | |- context [User.save ?d0] =>
      destruct (new_user_fields (user !! "uid") (user !! "name")
                  (user !! "email") (VId (ids w)))
        as (Hu & Hn & He & Hr);
      set (d := d0) in *
  end.
  rewrite Huid in Hu.
  unfold User.save. rewrite (validate_new_user d uid Hu Hne Hr).
  unfold bind, db_call, next_fault. simpl. rewrite Hup2. simpl.
  rewrite Hu, Hfree, He, (find_none_existsb _ _ Hfind). simpl.
  exists d. repeat split; try assumption.
  unfold str_field. by rewrite Hr.
Qed.

(** X10: the login of an identity whose e-mail no user holds and whose
    subject id a user already holds (the address of the account has
    changed): the unique index refuses the insert, the handler rejects
    without a response, and the store is unchanged. *)
Theorem login_with_taken_subject_id_is_refused req w t user uid :
  route_of req = Some Login ->
  bearer_token (authorization req) = Some t ->
  verifyIdToken t = inr user ->
  user !! "uid" = Some uid ->
  uid <> "" ->
  List.find (matches "email" (user !! "email")) (users (store w)) = None ->
  (exists d, d ∈ users (store w) /\ str_field d "firebase_uid" = Some uid) ->
  calm 2 w ->
  let o := serve verifyIdToken req w in
  o.1 = Rejected (DuplicateKey "firebase_uid")
  /\ res o.2 = None
  /\ store o.2 = store w.
Proof.
  intros Hroute Htok Hver Huid Hne Hfind Hheld Hcalm o. subst o.
  pose proof (calm_next _ _ Hcalm) as Hup1.
  pose proof (calm_next _ _ (calm_called _ (EvRead CUser) _ Hcalm)) as Hup2.
  apply existsb_matches_true in Hheld.
  unfold serve, app. rewrite Hroute. simpl.
  rewrite (checkAuth_verified _ _ _ _ t user Htok Hver).
  unfold handler, bind, emit, login, User.findOne, bind, db_call.
  unfold next_fault in *. simpl in *. rewrite Hup1. simpl.
  rewrite Hfind. simpl.
  match goal with
  | |- context [User.save ?d0] =>
      destruct (new_user_fields (user !! "uid") (user !! "name")
                  (user !! "email") (VId (ids w)))
        as (Hu & Hn & He & Hr);
      set (d := d0) in *
  end.
  rewrite Huid in Hu.
  unfold User.save. rewrite (validate_new_user d uid Hu Hne Hr).
  unfold bind, db_call, next_fault. simpl. rewrite Hup2. simpl.
  rewrite Hu, Hheld. by repeat split.
Qed.

End NewLogin.

(** ** Posting research *)


Lemma set_path_lookup_ne cast k k' (b : Doc) (acc : Doc * list string) :
  k <> k' -> (set_path cast k b acc).1 !! k' = acc.1 !! k'.
Proof.
  intros Hne. unfold set_path.
  destruct (b !! k) as [v|]; [|done].
  destruct (cast v); simpl; [by rewrite lookup_insert_ne | done].
Qed.

Lemma set_path_lookup cast k (b : Doc) (acc : Doc * list string) :
  (set_path cast k b acc).1 !! k
  = match b !! k ≫= cast with
    | Some v => Some v
    | None => acc.1 !! k
    end.
Proof.
  unfold set_path.
  destruct (b !! k) as [v|]; simpl; [|done].
  destruct (cast v); simpl; [by rewrite lookup_insert_eq | done].
Qed.



Lemma hydrate_status id (b : Doc) s :
  b !! "status" = Some (VStr s) ->
  (Research.hydrate id b).1 !! "status" = Some (VStr s).
Proof.
  intros Hs. unfold Research.hydrate, Research.schema.
  cbn [fold_left fst snd].
  match goal with
  | |- (match ?e with Some v => Research.set_eligibility v ?top
                 | None => _ end).1 !! _ = _ =>
      assert (top.1 !! "status" = Some (VStr s)) as Htop
  end.
  { rewrite set_path_lookup_ne by done.
    rewrite set_path_lookup, Hs. reflexivity. }
  destruct (b !! "eligibility") as [v|]; [|exact Htop].
  destruct v; simpl; try exact Htop; by rewrite lookup_insert_ne.
Qed.

Section PostResearch.

Variable verifyIdToken : string -> Err + Claims.


(** X12: POST /api/research by a professor with a status that is neither
    open nor closed: the record does not validate, nothing is sent to the
    store, the store is unchanged, and the handler rejects without a
    response. *)
Theorem research_with_unknown_status_is_not_stored req w t user s :
  route_of req = Some PostResearch ->
  bearer_token (authorization req) = Some t ->
  verifyIdToken t = inr user ->
  user !! "role" = Some "professor" ->
  body req !! "status" = Some (VStr s) ->
  s <> "open" ->
  s <> "closed" ->
  let o := serve verifyIdToken req w in
  o.1 = Rejected (ValidationError "status")
  /\ res o.2 = None
  /\ store o.2 = store w
  /\ faults o.2 = faults w
  /\ events w o = [EvVerify t; EvHandler PostResearch].
Proof.
  intros Hroute Htok Hver Hrole Hs Hopen Hclosed o. subst o.
  unfold serve, app. rewrite Hroute. simpl.
  rewrite (checkAuth_verified _ _ _ _ t user Htok Hver).
  unfold handler, bind, emit, post_research.
  rewrite (role_is_true _ _ Hrole).
  unfold Research.new, bind, fresh_id, ret. simpl.
  set (r := Research.hydrate (VId (ids w)) (body req)).
  assert (Research.validate r = Some (ValidationError "status")) as Hval.
  { unfold Research.validate. subst r.
    rewrite (hydrate_status _ _ s Hs).
    rewrite bool_decide_eq_false_2; [done|].
    rewrite !not_elem_of_cons. repeat split; try done.
    apply not_elem_of_nil. }
  unfold Research.save. rewrite Hval. simpl.
  repeat split. apply events_two. reflexivity.
Qed.

End PostResearch.

(** ** What the application adds to the store *)

Lemma validate_gives_uid (d : Doc) :
  User.validate d = None ->
  exists uid, str_field d "firebase_uid" = Some uid /\ uid <> "".
Proof.
  unfold User.validate.
  destruct (str_field d "firebase_uid") as [[|c uid]|]; try discriminate.
  intros _. by eexists.
Qed.

Lemma new_user_role (uid name email : option Val) (id : Val) :
  str_field
    (with_field "firebase_uid" uid
       (with_field "full_name" name
          (with_field "email" email
             {[ "_id" := id; "role" := VStr "student";
                "research_interests" := VArr [] ]}))) "role"
  = Some "student".
Proof.
  unfold str_field. rewrite !with_field_lookup_ne by done. reflexivity.
Qed.

Section Growth.

Variable verifyIdToken : string -> Err + Claims.

Lemma serve_users_student req w :
  let o := serve verifyIdToken req w in
  users (store o.2) = users (store w)
  \/ exists d : Doc,
       users (store o.2) = (users (store w) ++ [d])%list /\ created_user d.
Proof.
  intros o. subst o.
  destruct (route_of req) as [r|] eqn:Hroute.
  - destruct (protected r) eqn:Hprot.
    + pattern (serve verifyIdToken req w).
      apply (serve_protected_cases _ _ req w r Hroute Hprot);
        [by left | by left |].
      intros t user _ _.
      destruct r; try discriminate Hprot;
        run_all ltac:(first
          [ by left
          | right; eexists; split; [reflexivity|];
            split; [apply new_user_role|];
            match goal with
            | H : User.validate _ = None |- _ =>
                exact (validate_gives_uid _ H)
            end ]).
    + rewrite (serve_public _ req w r Hroute Hprot).
      destruct r; try discriminate Hprot; run_all ltac:(by left).
  - rewrite (serve_unrouted _ req w Hroute). by left.
Qed.

(** X13: the unique indexes of the User schema are an invariant: from a
    store in which no two users share an e-mail or a subject id, they
    still do not after any sequence of requests, whatever the requests and
    the failures of the store. *)
Theorem unique_indexes_hold_after_any_requests reqs w :
  email_unique (store w) /\ uid_unique (store w) ->
  let w' := serve_all verifyIdToken reqs w in
  email_unique (store w') /\ uid_unique (store w').
Proof.
  revert w. induction reqs as [|req reqs IH]; intros w Hw; [exact Hw|].
  simpl. apply IH. by apply serve_keeps_indexes.
Qed.

(** X14: whatever the requests served, the users of the store are the
    users it had, in their order and unchanged, followed by users the
    application created; each of these has the role student and a
    non-empty subject id: no request creates a professor or an admin, and
    none changes or removes a user. *)
Theorem application_only_adds_students reqs w :
  let w' := serve_all verifyIdToken reqs w in
  exists added : list Doc,
    users (store w') = (users (store w) ++ added)%list
    /\ Forall created_user added.
Proof.
  revert w. induction reqs as [|req reqs IH]; intros w; simpl.
  - exists []. by rewrite app_nil_r.
  - destruct (IH (serve verifyIdToken req w).2) as (added & Hadd & Hall).
    destruct (serve_users_student req w) as [Hsame | (d & Hd & Hcr)].
    + exists added. by rewrite Hadd, Hsame.
    + exists (d :: added). rewrite Hadd, Hd, <- app_assoc.
      split; [reflexivity | by constructor].
Qed.

(** X15: serving a request changes no stored record and removes none: each
    collection is afterwards what it was, possibly followed by new
    records, and the discussions are as they were. *)
Theorem stored_records_are_kept req w :
  let o := serve verifyIdToken req w in
  users (store w) `prefix_of` users (store o.2)
  /\ researches (store w) `prefix_of` researches (store o.2)
  /\ applications (store w) `prefix_of` applications (store o.2)
  /\ discussions (store o.2) = discussions (store w).
Proof.
  intros o. subst o.
  destruct (route_of req) as [r|] eqn:Hroute.
  - destruct (protected r) eqn:Hprot.
    + pattern (serve verifyIdToken req w).
      apply (serve_protected_cases _ _ req w r Hroute Hprot);
        [done | done |].
      intros t user _ _.
      destruct r; try discriminate Hprot;
        run_all ltac:(repeat split;
                      first [reflexivity | by apply prefix_app_r]).
    + rewrite (serve_public _ req w r Hroute Hprot).
      destruct r; try discriminate Hprot; run_all ltac:(done).
  - by rewrite (serve_unrouted _ req w Hroute).
Qed.

End Growth.

(** ** The join of the public lists *)

Lemma populate_selected path us d :
  reference_is_id path d -> joins_selected path (VObj (populate path us d)).
Proof.
  intros Hid. exists (populate path us d). split; [reflexivity|].
  unfold populate. intros p.
  destruct (d !! path) as [v|] eqn:Hv.
  - destruct (Hid v Hv) as [n ->].
    rewrite lookup_insert_eq.
    destruct (List.find (has_id n) us) as [u|]; [|discriminate].
    intros [= <-]. split.
    + apply map_lookup_filter_None. right. intros x _ Hin. simpl in Hin.
      assert ("firebase_uid" ∉ ["_id"; "full_name"; "email"]) as Hnot.
      { rewrite !not_elem_of_cons. repeat split; try done.
        apply not_elem_of_nil. }
      by apply Hnot.
    + intros k [x Hx]. by apply map_lookup_filter_Some in Hx as [_ Hk].
  - rewrite Hv. discriminate.
Qed.

Lemma populated_docs path us (ds : list Doc) :
  Forall (reference_is_id path) ds ->
  Forall (joins_selected path) (VObj <$> map (populate path us) ds).
Proof.
  induction 1 as [|d ds Hd _ IH]; simpl; constructor; [|exact IH].
  by apply populate_selected.
Qed.

Section Joins.

Variable verifyIdToken : string -> Err + Claims.

(** X16: in a 200 response of GET /api/research or GET /api/discussions,
    over stored records whose reference to a user is an id, the user joined
    into a record has no field besides _id, full_name and email; in
    particular the subject id of the professor or of the author is not
    disclosed. *)
Theorem public_lists_join_selected_fields req w r l :
  route_of req = Some r ->
  r = GetResearch \/ r = Discussions ->
  Forall (reference_is_id (reference_path r)) (listed r (store w)) ->
  let o := serve verifyIdToken req w in
  res o.2 = Some {| status := 200; payload := Some (VArr l) |} ->
  Forall (joins_selected (reference_path r)) l.
Proof.
  intros Hroute Hr Hids o. subst o.
  destruct Hr as [-> | ->];
    rewrite (serve_public _ req w _ Hroute eq_refl).
  - destruct w as [st rs i fs tr]. unfold_handlers. simpl in *.
    destruct fs as [|[e1|] [|[e2|] fs]]; simpl;
      destruct (existsb (Research.refers "professor_id") (researches st));
      simpl; intros [= <-]; by apply populated_docs.
  - unfold_handlers. simpl. intros [=].
Qed.

End Joins.

(** ** Headers without the scheme *)

Lemma bearer_token_without_scheme h :
  occurs "Bearer " h = false -> bearer_token (Some h) = None.
Proof.
  intros Hocc. unfold bearer_token, split.
  by rewrite split_go_no_occurrence.
Qed.

Section Scheme.

Variable verifyIdToken : string -> Err + Claims.

(** X17: a request to a protected route whose Authorization header does not
    contain [Bearer ] (another scheme, another case, no space) is answered
    401 with the message for a missing token; the verifier is not called,
    the handler is not entered and the store is unchanged. *)
Theorem header_without_bearer_is_refused req w r h :
  route_of req = Some r ->
  protected r = true ->
  authorization req = Some h ->
  occurs "Bearer " h = false ->
  let o := serve verifyIdToken req w in
  res o.2
  = Some {| status := 401;
            payload := Some (message "Unauthorized: No token provided") |}
  /\ events w o = []
  /\ store o.2 = store w.
Proof.
  intros Hroute Hprot Hh Hocc o. subst o.
  assert (bearer_token (authorization req) = None) as Htok.
  { rewrite Hh. by apply bearer_token_without_scheme. }
  unfold serve, app. rewrite Hroute, dispatch_handler_of, Hprot.
  rewrite (checkAuth_no_token _ _ _ (fresh_res w) eq_refl Htok).
  repeat split. by apply events_none.
Qed.

End Scheme.

(** ** Instances of the further properties on the sample data *)

Lemma bearer_token_of_bearer_header_witness :
  bearer_token (Some ("Bearer " +:+ "student-token")) = Some "student-token".
Proof.
  apply bearer_token_of_bearer_header; [discriminate | reflexivity].
Defined.

Lemma bearer_token_in_header_witness :
  "abc" <> ""
  /\ exists before after : string,
       "Token Bearer abcBearer def" = before +:+ "Bearer " +:+ "abc" +:+ after
       /\ (after = "" \/ String.prefix "Bearer " after = true).
Proof.
  apply (bearer_token_in_header "Token Bearer abcBearer def" "abc").
  reflexivity.
Defined.

Lemma status_401_iff_authentication_fails_witness :
  let o :=
    serve sample_verifier
      (request GET "/api/users" (Some "forged-token") ∅)
      (init_world sample_store []) in
  sent_status o = Some 401
  <-> match bearer_token (Some "Bearer forged-token") with
      | Some t => exists e, sample_verifier t = inl e
      | None => True
      end.
Proof.
  refine (status_401_iff_authentication_fails sample_verifier
            (request GET "/api/users" (Some "forged-token") ∅)
            (init_world sample_store []) Users _ _);
    reflexivity.
Defined.

Lemma status_403_iff_role_mismatch_witness :
  let o :=
    serve sample_verifier
      (request POST "/api/apply" (Some "professor-token") application_body)
      (init_world sample_store []) in
  sent_status o = Some 403
  <-> exists role,
        required_role Apply = Some role
        /\ ({[ "uid" := "uid-pat"; "email" := "pat@uni.edu";
               "name" := "Pat"; "role" := "professor" ]} : Claims)
           !! "role" <> Some role.
Proof.
  refine (status_403_iff_role_mismatch sample_verifier
            (request POST "/api/apply" (Some "professor-token")
               application_body)
            (init_world sample_store []) Apply "professor-token"
            {[ "uid" := "uid-pat"; "email" := "pat@uni.edu";
               "name" := "Pat"; "role" := "professor" ]} _ _ _);
    reflexivity.
Defined.

Lemma get_requests_never_write_witness :
  let w := init_world sample_store [] in
  let o :=
    serve sample_verifier
      (request GET "/api/users/professors" (Some "student-token") ∅) w in
  store o.2 = store w
  /\ Forall (fun ev => is_write ev = false) (events w o).
Proof.
  refine (get_requests_never_write sample_verifier
            (request GET "/api/users/professors" (Some "student-token") ∅)
            (init_world sample_store []) _).
  reflexivity.
Defined.

Lemma verifier_called_once_for_a_token_witness :
  let w := init_world sample_store [] in
  let o :=
    serve sample_verifier
      (request GET "/api/users" (Some "student-token") ∅) w in
  List.filter is_verify (events w o) = [EvVerify "student-token"].
Proof.
  refine (verifier_called_once_for_a_token sample_verifier
            (request GET "/api/users" (Some "student-token") ∅)
            (init_world sample_store []) Users _).
  reflexivity.
Defined.

Lemma role_list_answers_witness :
  let w := init_world sample_store [] in
  let o :=
    serve sample_verifier
      (request GET "/api/users/students" (Some "professor-token") ∅) w in
  (next_fault w = None ->
   res o.2 = Some (view (matches "role" (Some "student")) (store w)))
  /\ (forall e,
        next_fault w = Some e ->
        res o.2
        = Some {| status := 500;
                  payload :=
                    Some (failure ("Error fetching " +:+ "student" +:+ "s")
                            e) |})
  /\ store o.2 = store w.
Proof.
  refine (role_list_answers sample_verifier
            (request GET "/api/users/students" (Some "professor-token") ∅)
            (init_world sample_store []) Students "professor-token"
            {[ "uid" := "uid-pat"; "email" := "pat@uni.edu";
               "name" := "Pat"; "role" := "professor" ]}
            "professor" "student" _ _ _ _ _ _);
    reflexivity.
Defined.

Lemma first_login_creates_a_student_witness :
  let w := init_world sample_store [] in
  let o :=
    serve sample_verifier
      (request POST "/api/auth/login" (Some "newcomer-token") ∅) w in
  exists d : Doc,
    users (store o.2) = (users (store w) ++ [d])%list
    /\ str_field d "firebase_uid" = Some "uid-kim"
    /\ d !! "full_name" = Some (VStr "Kim")
    /\ str_field d "email" = Some "kim@uni.edu"
    /\ str_field d "role" = Some "student"
    /\ res o.2 = Some (login_reply d)
    /\ researches (store o.2) = researches (store w)
    /\ applications (store o.2) = applications (store w).
Proof.
  refine (first_login_creates_a_student sample_verifier
            (request POST "/api/auth/login" (Some "newcomer-token") ∅)
            (init_world sample_store []) "newcomer-token"
            {[ "uid" := "uid-kim"; "email" := "kim@uni.edu";
               "name" := "Kim" ]} "uid-kim" _ _ _ _ _ _ _ _);
    try reflexivity.
  - discriminate.
  - unfold calm. simpl. constructor.
Defined.

Lemma login_with_taken_subject_id_is_refused_witness :
  let w := init_world sample_store [] in
  let o :=
    serve renamed_verifier
      (request POST "/api/auth/login" (Some "renamed-token") ∅) w in
  o.1 = Rejected (DuplicateKey "firebase_uid")
  /\ res o.2 = None
  /\ store o.2 = store w.
Proof.
  refine (login_with_taken_subject_id_is_refused renamed_verifier
            (request POST "/api/auth/login" (Some "renamed-token") ∅)
            (init_world sample_store []) "renamed-token"
            {[ "uid" := "uid-pat"; "email" := "pat@new.edu";
               "name" := "Pat" ]} "uid-pat" _ _ _ _ _ _ _ _);
    try reflexivity.
  - discriminate.
  - exists pat. split; [apply list_elem_of_here | reflexivity].
  - unfold calm. simpl. constructor.
Defined.


Lemma research_with_unknown_status_is_not_stored_witness :
  let w := init_world sample_store [] in
  let o :=
    serve sample_verifier
      (request POST "/api/research" (Some "professor-token") archived_body)
      w in
  o.1 = Rejected (ValidationError "status")
  /\ res o.2 = None
  /\ store o.2 = store w
  /\ faults o.2 = faults w
  /\ events w o = [EvVerify "professor-token"; EvHandler PostResearch].
Proof.
  refine (research_with_unknown_status_is_not_stored sample_verifier
            (request POST "/api/research" (Some "professor-token")
               archived_body)
            (init_world sample_store []) "professor-token"
            {[ "uid" := "uid-pat"; "email" := "pat@uni.edu";
               "name" := "Pat"; "role" := "professor" ]} "archived"
            _ _ _ _ _ _ _);
    try reflexivity; discriminate.
Defined.

Lemma unique_indexes_hold_after_any_requests_witness :
  let w' :=
    serve_all sample_verifier
      [ request POST "/api/auth/login" (Some "newcomer-token") ∅;
        request POST "/api/auth/login" (Some "moved-token") ∅;
        request POST "/api/apply" (Some "student-token") application_body ]
      (init_world sample_store []) in
  email_unique (store w') /\ uid_unique (store w').
Proof.
  apply (unique_indexes_hold_after_any_requests sample_verifier).
  split; apply (bool_decide_unpack _); vm_compute; exact I.
Defined.

Lemma public_lists_join_selected_fields_witness :
  Forall (joins_selected "professor_id")
    [VObj (populate "professor_id" [pat; sam] graphs)].
Proof.
  refine (public_lists_join_selected_fields sample_verifier
            (request GET "/api/research" None ∅)
            (init_world listing_store []) GetResearch _ _ _ _ _).
  - reflexivity.
  - left. reflexivity.
  - constructor; [|constructor].
    intros v Hv. vm_compute in Hv. injection Hv as <-. by eexists.
  - reflexivity.
Defined.

Lemma header_without_bearer_is_refused_witness :
  let w := init_world sample_store [] in
  let o :=
    serve sample_verifier
      {| method := GET; path := "/api/users";
         authorization := Some "bearer student-token"; body := ∅ |} w in
  res o.2
  = Some {| status := 401;
            payload := Some (message "Unauthorized: No token provided") |}
  /\ events w o = []
  /\ store o.2 = store w.
Proof.
  refine (header_without_bearer_is_refused sample_verifier _
            (init_world sample_store []) Users "bearer student-token"
            _ _ _ _);
    reflexivity.
Defined.
